(** * Iframe redirect handler: a shallow embedding of [redirect-handler.js]

    The handler watches a cross-origin booking iframe through five
    detectors and sends the host page to a thank-you address.  This file
    embeds the success classifier ([isSuccessMessage], [isSuccessUrl],
    [containsSuccessIndicator]), the dispatcher ([triggerRedirect],
    [trackRedirect]), the five detector callbacks and [init], and proves
    properties of them.

    Conventions of the embedding.
    - A JavaScript string is a list of code units; only code units below
      256 (Latin-1) are represented, each as an [ascii].
    - A JavaScript value that may be [undefined] where a string is
      expected is an [option].
    - The page is a record that is passed from callback to callback; the
      browser's event loop is the list of events applied to it. *)

From Stdlib Require Import List Ascii String Bool Arith ZArith Lia.
From Stdlib Require Import DecimalString.
Import ListNotations.

Set Warnings "-register-all".

(** ** Strings *)

Module Str.

Definition str := list ascii.

(** A literal of the source file. *)
Definition lit (s : string) : str := list_ascii_of_string s.

Definition eqb (a b : str) : bool :=
  if list_eq_dec ascii_dec a b then true else false.

(** [String.prototype.toLowerCase] on one Latin-1 code unit: A-Z and the
    accented capitals U+00C0..U+00DE (without the multiplication sign
    U+00D7) move up by 32, everything else stays. *)
Definition lower_char (c : ascii) : ascii :=
  let n := nat_of_ascii c in
  if ((65 <=? n) && (n <=? 90)) || ((192 <=? n) && (n <=? 222) && negb (n =? 215))
  then ascii_of_nat (n + 32) else c.

Definition toLowerCase (s : str) : str := map lower_char s.

(** [s] starts with [t]. *)
Fixpoint startsWith (t s : str) : bool :=
  match t, s with
  | [], _ => true
  | _ :: _, [] => false
  | a :: t', b :: s' => if ascii_dec a b then startsWith t' s' else false
  end.

(** [String.prototype.includes]: [t] occurs in [s] at some position. *)
Fixpoint includes (s t : str) : bool :=
  startsWith t s ||
  match s with
  | [] => false
  | _ :: s' => includes s' t
  end.

(** [Array.prototype.join] on strings. *)
Fixpoint join (sep : str) (l : list str) : str :=
  match l with
  | [] => []
  | [x] => x
  | x :: r => x ++ sep ++ join sep r
  end.

(** Decimal rendering of an integer, as [Number.prototype.toString]
    gives it for an integral number below 10^21 in size. *)
Definition dec (n : Z) : str :=
  lit (NilZero.string_of_int (Z.to_int n)).

End Str.
Import Str.

(** ** The success classifier *)

(** Keywords that might appear in success URLs or messages. *)
Definition SUCCESS_INDICATORS : list str :=
  [ lit "thank"; lit "success"; lit "confirm"; lit "complete";
    lit "booked"; lit "scheduled"; lit "appointment-confirmed" ].

(** [SUCCESS_INDICATORS.some(indicator => s.includes(indicator))] *)
Definition someIndicator (s : str) : bool :=
  existsb (fun indicator => includes s indicator) SUCCESS_INDICATORS.

(** [isSuccessUrl(url)]; [None] is [undefined]. *)
Definition isSuccessUrl (url : option str) : bool :=
  match url with
  | None | Some [] => false
  | Some u => someIndicator (toLowerCase u)
  end.

(** [containsSuccessIndicator(text)]; [None] is [undefined]. *)
Definition containsSuccessIndicator (text : option str) : bool :=
  match text with
  | None | Some [] => false
  | Some t => someIndicator (toLowerCase t)
  end.

(** ** JavaScript values

    The payloads a [message] event can carry, as far as the classifier
    tells them apart: [undefined], [null], booleans, integral numbers,
    BigInts, strings, arrays and plain objects.  An object is the list of
    its own enumerable properties in enumeration order; reading a
    property finds the first entry with that key.  An array has its
    indexed elements and, beside them, the properties set on it under
    other names.  [JCycle] stands, inside an object or array, for a
    reference back to an object or array that contains it.  Dates, maps,
    sets and binary data are not represented. *)

Inductive JsValue : Type :=
| JUndefined
| JNull
| JBool (b : bool)
| JNum (n : Z)
| JBigInt (n : Z)
| JStr (s : str)
| JArr (elems : list JsValue) (named : list (str * JsValue))
| JObj (props : list (str * JsValue))
| JCycle.

(** [!v] is false. *)
Definition truthy (v : JsValue) : bool :=
  match v with
  | JUndefined | JNull | JBool false | JNum 0%Z | JBigInt 0%Z | JStr [] => false
  | _ => true
  end.

(** [typeof v === 'object'] *)
Definition typeof_object (v : JsValue) : bool :=
  match v with
  | JNull | JArr _ _ | JObj _ | JCycle => true
  | _ => false
  end.

Fixpoint lookup (key : str) (props : list (str * JsValue)) : JsValue :=
  match props with
  | [] => JUndefined
  | (k, v) :: r => if eqb k key then v else lookup key r
  end.

(** [v.key] for a value that is not [undefined] or [null], and a key
    that is neither an index nor [length]. *)
Definition getProp (v : JsValue) (key : str) : JsValue :=
  match v with
  | JObj props => lookup key props
  | JArr _ named => lookup key named
  | _ => JUndefined
  end.

(** [a === true] and [a === 'lit'] *)
Definition is_true (v : JsValue) : bool :=
  match v with JBool true => true | _ => false end.

Definition is_string (v : JsValue) (s : str) : bool :=
  match v with JStr x => eqb x s | _ => false end.

Module Json.

Definition dquote : ascii := ascii_of_nat 34.
Definition bslash : ascii := ascii_of_nat 92.

Definition hex_digit (n : nat) : ascii :=
  nth n (lit "0123456789abcdef") "0"%char.

(** One code unit inside a JSON string literal (QuoteJSONString). *)
Definition escape_char (c : ascii) : str :=
  let n := nat_of_ascii c in
  if n =? 34 then [bslash; dquote]
  else if n =? 92 then [bslash; bslash]
  else if n =? 8 then bslash :: lit "b"
  else if n =? 9 then bslash :: lit "t"
  else if n =? 10 then bslash :: lit "n"
  else if n =? 12 then bslash :: lit "f"
  else if n =? 13 then bslash :: lit "r"
  else if n <? 32 then bslash :: lit "u00" ++ [hex_digit (n / 16); hex_digit (n mod 16)]
  else [c].

Definition escape (s : str) : str := flat_map escape_char s.

Definition quote (s : str) : str := dquote :: escape s ++ [dquote].

(** What [JSON.stringify] gives: a text, the value [undefined], or a
    [TypeError] raised. *)
Inductive Rendered : Type :=
| Text (t : str)
| NoText
| Raises.

(** The rendered members of a list, [None] when one of them raised. *)
Definition consMember (t : str) (rest : option (list str)) : option (list str) :=
  match rest with
  | Some l => Some (t :: l)
  | None => None
  end.

(** [JSON.stringify(v)].  A property whose value renders as [undefined]
    is left out of an object, and an array element that does is written
    [null]; the properties an array has beside its elements are not
    written.  A BigInt and a cyclic reference raise a [TypeError], from
    wherever in the value they are met. *)
Fixpoint stringify (v : JsValue) : Rendered :=
  match v with
  | JUndefined => NoText
  | JNull => Text (lit "null")
  | JBool true => Text (lit "true")
  | JBool false => Text (lit "false")
  | JNum n => Text (dec n)
  | JBigInt _ => Raises
  | JStr s => Text (quote s)
  | JCycle => Raises
  | JArr elems _ =>
      match
        (fix items (l : list JsValue) : option (list str) :=
           match l with
           | [] => Some []
           | e :: r =>
               match stringify e with
               | Text t => consMember t (items r)
               | NoText => consMember (lit "null") (items r)
               | Raises => None
               end
           end) elems
      with
      | Some l => Text (lit "[" ++ join (lit ",") l ++ lit "]")
      | None => Raises
      end
  | JObj props =>
      match
        (fix members (ps : list (str * JsValue)) : option (list str) :=
           match ps with
           | [] => Some []
           | (k, x) :: r =>
               match stringify x with
               | Text t => consMember (quote k ++ lit ":" ++ t) (members r)
               | NoText => members r
               | Raises => None
               end
           end) props
      with
      | Some l => Text (lit "{" ++ join (lit ",") l ++ lit "}")
      | None => Raises
      end
  end.

(** The rendered members of an object, as [stringify] computes them. *)
Fixpoint members (ps : list (str * JsValue)) : option (list str) :=
  match ps with
  | [] => Some []
  | (k, x) :: r =>
      match stringify x with
      | Text t => consMember (quote k ++ lit ":" ++ t) (members r)
      | NoText => members r
      | Raises => None
      end
  end.

End Json.

(** [isSuccessMessage(data)].  [None] stands for a [TypeError]: the one
    [JSON.stringify(data)] raises, or the one of [.toLowerCase()] on a
    rendering that is [undefined]. *)
Definition isSuccessMessage (data : JsValue) : option bool :=
  if negb (truthy data) then Some false
  else if typeof_object data && is_true (getProp data (lit "success")) then Some true
  else if typeof_object data && is_string (getProp data (lit "status")) (lit "success") then Some true
  else if typeof_object data && is_string (getProp data (lit "type")) (lit "bookingComplete") then Some true
  else
    match Json.stringify data with
    | Json.Text dataStr => Some (someIndicator (toLowerCase dataStr))
    | Json.NoText => None
    | Json.Raises => None
    end.

(** ** The page

    Everything the script reads or writes: the mutable fields of [CONFIG],
    the analytics globals, the console, the pending navigation timeouts,
    the assignments made to [window.location.href], and the resources the
    detectors own. *)

(** The constant fields of [CONFIG]. *)
Record Settings : Type := {
  redirectUrl : str;
  redirectDelay : nat;
  checkInterval : nat;
  maxRedirectAttempts : nat
}.

Definition CONFIG : Settings := {|
  redirectUrl := lit "https://studentmarketing.agency/thanks-appointment/";
  redirectDelay := 1500;
  checkInterval := 500;
  maxRedirectAttempts := 3
|}.

(** The [method] strings the script passes to [triggerRedirect]. *)
Inductive Method : Type :=
| postMessage | urlMonitoring | mutationObserver
| navigationWatcher | customEvent | manual.

Definition methodName (m : Method) : str :=
  match m with
  | postMessage => lit "postMessage"
  | urlMonitoring => lit "urlMonitoring"
  | mutationObserver => lit "mutationObserver"
  | navigationWatcher => lit "navigationWatcher"
  | customEvent => lit "customEvent"
  | manual => lit "manual"
  end.

Inductive Level : Type := LLog | LError.

Record Line : Type := { level : Level; text : str; args : list JsValue }.

(** An analytics global: not defined, defined and returning, or defined
    and raising [e] when called. *)
Inductive Provider : Type := Absent | Works | Throws (e : JsValue).

Inductive AnalyticsCall : Type :=
| Gtag (method : Method) (redirect_url : str)
| Ga (method : Method)
| Fbq (method : Method).

Record Page : Type := {
  (* CONFIG.iframe is not null *)
  iframe : bool;
  (* CONFIG.loadingOverlay: None is null, Some a is an element whose
     class list holds 'active' iff a *)
  loadingOverlay : option bool;
  (* CONFIG.redirectAttempts *)
  redirectAttempts : nat;
  gtag : Provider;
  ga : Provider;
  fbq : Provider;
  (* calls made to the analytics globals, oldest first *)
  analytics : list AnalyticsCall;
  console : list Line;
  (* milliseconds since the script started *)
  clock : nat;
  (* due times of the pending setTimeout callbacks of triggerRedirect *)
  timers : list nat;
  (* values assigned to window.location.href, oldest first *)
  navigations : list str;
  (* history of the calls of triggerRedirect, oldest first; the script
     keeps no such record, it is here to state what a detector reported *)
  dispatched : list Method;
  (* the 'message' listener is registered *)
  messageListener : bool;
  (* the interval of setupUrlMonitoring: running?, lastUrl *)
  urlChecker : option (bool * str);
  (* the MutationObserver: connected? *)
  observer : option bool;
  (* the 'load' listener on the iframe is registered *)
  loadListener : bool;
  (* the window event names with a listener of setupCustomEventListener *)
  customListeners : list str
}.

(** The page as the script finds it when it is loaded. *)
Definition freshPage (g1 g2 g3 : Provider) : Page := {|
  iframe := false; loadingOverlay := None; redirectAttempts := 0;
  gtag := g1; ga := g2; fbq := g3;
  analytics := []; console := []; clock := 0; timers := [];
  navigations := []; dispatched := [];
  messageListener := false; urlChecker := None; observer := None;
  loadListener := false; customListeners := []
|}.

Module Upd.

Definition elements (i : bool) (o : option bool) (p : Page) : Page :=
  {| iframe := i; loadingOverlay := o;
     redirectAttempts := redirectAttempts p;
     gtag := gtag p; ga := ga p; fbq := fbq p; analytics := analytics p;
     console := console p; clock := clock p; timers := timers p;
     navigations := navigations p; dispatched := dispatched p;
     messageListener := messageListener p; urlChecker := urlChecker p;
     observer := observer p; loadListener := loadListener p;
     customListeners := customListeners p |}.

Definition attempts (n : nat) (p : Page) : Page :=
  {| iframe := iframe p; loadingOverlay := loadingOverlay p;
     redirectAttempts := n;
     gtag := gtag p; ga := ga p; fbq := fbq p; analytics := analytics p;
     console := console p; clock := clock p; timers := timers p;
     navigations := navigations p; dispatched := dispatched p;
     messageListener := messageListener p; urlChecker := urlChecker p;
     observer := observer p; loadListener := loadListener p;
     customListeners := customListeners p |}.

Definition called (a : AnalyticsCall) (p : Page) : Page :=
  {| iframe := iframe p; loadingOverlay := loadingOverlay p;
     redirectAttempts := redirectAttempts p;
     gtag := gtag p; ga := ga p; fbq := fbq p;
     analytics := analytics p ++ [a];
     console := console p; clock := clock p; timers := timers p;
     navigations := navigations p; dispatched := dispatched p;
     messageListener := messageListener p; urlChecker := urlChecker p;
     observer := observer p; loadListener := loadListener p;
     customListeners := customListeners p |}.

Definition printed (l : Line) (p : Page) : Page :=
  {| iframe := iframe p; loadingOverlay := loadingOverlay p;
     redirectAttempts := redirectAttempts p;
     gtag := gtag p; ga := ga p; fbq := fbq p; analytics := analytics p;
     console := console p ++ [l];
     clock := clock p; timers := timers p;
     navigations := navigations p; dispatched := dispatched p;
     messageListener := messageListener p; urlChecker := urlChecker p;
     observer := observer p; loadListener := loadListener p;
     customListeners := customListeners p |}.

Definition time (c : nat) (ts : list nat) (ns : list str) (p : Page) : Page :=
  {| iframe := iframe p; loadingOverlay := loadingOverlay p;
     redirectAttempts := redirectAttempts p;
     gtag := gtag p; ga := ga p; fbq := fbq p; analytics := analytics p;
     console := console p;
     clock := c; timers := ts; navigations := ns;
     dispatched := dispatched p;
     messageListener := messageListener p; urlChecker := urlChecker p;
     observer := observer p; loadListener := loadListener p;
     customListeners := customListeners p |}.

Definition reported (m : Method) (p : Page) : Page :=
  {| iframe := iframe p; loadingOverlay := loadingOverlay p;
     redirectAttempts := redirectAttempts p;
     gtag := gtag p; ga := ga p; fbq := fbq p; analytics := analytics p;
     console := console p; clock := clock p; timers := timers p;
     navigations := navigations p;
     dispatched := dispatched p ++ [m];
     messageListener := messageListener p; urlChecker := urlChecker p;
     observer := observer p; loadListener := loadListener p;
     customListeners := customListeners p |}.

Definition detectors (ml : bool) (uc : option (bool * str)) (ob : option bool)
    (ll : bool) (cl : list str) (p : Page) : Page :=
  {| iframe := iframe p; loadingOverlay := loadingOverlay p;
     redirectAttempts := redirectAttempts p;
     gtag := gtag p; ga := ga p; fbq := fbq p; analytics := analytics p;
     console := console p; clock := clock p; timers := timers p;
     navigations := navigations p; dispatched := dispatched p;
     messageListener := ml; urlChecker := uc; observer := ob;
     loadListener := ll; customListeners := cl |}.

End Upd.

(** [console.log(text, ...args)] and [console.error(text)] *)
Definition log (t : string) (a : list JsValue) (p : Page) : Page :=
  Upd.printed {| level := LLog; text := lit t; args := a |} p.

Definition logStr (t : str) (p : Page) : Page :=
  Upd.printed {| level := LLog; text := t; args := [] |} p.

Definition error (t : string) (p : Page) : Page :=
  Upd.printed {| level := LError; text := lit t; args := [] |} p.

(** [setTimeout(callback, delay)] for the navigation callback. *)
Definition setTimeout (delay : nat) (p : Page) : Page :=
  Upd.time (clock p) (timers p ++ [clock p + delay]) (navigations p) p.

(** ** Statements that may raise *)

Inductive Result : Type :=
| Returned (p : Page)
| Thrown (e : JsValue) (p : Page).

Definition andThen (r : Result) (k : Page -> Result) : Result :=
  match r with
  | Returned p => k p
  | Thrown e p => Thrown e p
  end.

Notation "r ;; k" := (andThen r k) (at level 61, left associativity).

(** [try { body } catch (e) { handler }] *)
Definition tryCatch (body : Result) (handler : JsValue -> Page -> Page) : Page :=
  match body with
  | Returned p => p
  | Thrown e p => handler e p
  end.

(** [if (typeof f !== 'undefined') { f(...) }] *)
Definition callIfDefined (f : Provider) (a : AnalyticsCall) (p : Page) : Result :=
  match f with
  | Absent => Returned p
  | Works => Returned (Upd.called a p)
  | Throws e => Thrown e (Upd.called a p)
  end.

(** ** The dispatcher and the detectors *)

Section Handler.

Variable c : Settings.

(** [trackRedirect(method)] *)
Definition trackRedirect (method : Method) (p : Page) : Page :=
  tryCatch
    (callIfDefined (gtag p) (Gtag method (redirectUrl c)) p ;;
     (fun p => callIfDefined (ga p) (Ga method) p) ;;
     (fun p => callIfDefined (fbq p) (Fbq method) p) ;;
     (fun p => Returned (log "Analytics tracked:" [JStr (methodName method)] p)))
    (fun e p => log "Analytics tracking failed:" [e] p).

(** [CONFIG.loadingOverlay.classList.add('active')] when the overlay is
    not null. *)
Definition showOverlay (p : Page) : Page :=
  match loadingOverlay p with
  | Some _ => Upd.elements (iframe p) (Some true) p
  | None => p
  end.

(** [triggerRedirect(method)] *)
Definition triggerRedirect (method : Method) (p : Page) : Page :=
  let p := Upd.reported method p in
  if maxRedirectAttempts c <=? redirectAttempts p then
    log "Max redirect attempts reached" [] p
  else
    let p := Upd.attempts (S (redirectAttempts p)) p in
    let p := logStr (lit "Triggering redirect (method: " ++ methodName method ++
                     lit ", attempt: " ++ dec (Z.of_nat (redirectAttempts p)) ++
                     lit ")") p in
    let p := showOverlay p in
    let p := trackRedirect method p in
    setTimeout (redirectDelay c) p.

(** The callback given to [setTimeout]:
    [window.location.href = CONFIG.redirectUrl]. *)
Definition navigate (p : Page) : Page :=
  Upd.time (clock p) (timers p) (navigations p ++ [redirectUrl c]) p.

(** [dt] milliseconds pass: the clock moves on and every timeout that is
    due runs its callback, in the order the timeouts were set. *)
Definition elapse (dt : nat) (p : Page) : Page :=
  let now := clock p + dt in
  let due := filter (fun t => t <=? now) (timers p) in
  let pending := filter (fun t => negb (t <=? now)) (timers p) in
  fold_left (fun q _ => navigate q) due
    (Upd.time now pending (navigations p) p).

(** *** Method 1: the 'message' listener *)

Definition setupPostMessageListener (p : Page) : Result :=
  Returned
    (log "PostMessage listener setup complete" []
       (Upd.detectors true (urlChecker p) (observer p) (loadListener p)
          (customListeners p) p)).

(** The listener, run on a message event with [event.origin = origin] and
    [event.data = data].  A [TypeError] out of [isSuccessMessage] ends the
    listener. *)
Definition onMessage (origin : str) (data : JsValue) (p : Page) : Page :=
  if negb (messageListener p) then p
  else if negb (includes origin (lit "appointmentcore.com")) then p
  else
    let p := log "PostMessage received:" [data] p in
    match isSuccessMessage data with
    | Some true =>
        triggerRedirect postMessage (log "Success detected via postMessage" [] p)
    | Some false => p
    | None => p
    end.

(** *** Method 2: the interval reading the iframe address *)

Definition setupUrlMonitoring (p : Page) : Result :=
  Returned
    (log "URL monitoring setup complete" []
       (Upd.detectors (messageListener p) (Some (true, [])) (observer p)
          (loadListener p) (customListeners p) p)).

Definition setUrlChecker (running : bool) (lastUrl : str) (p : Page) : Page :=
  Upd.detectors (messageListener p) (Some (running, lastUrl)) (observer p)
    (loadListener p) (customListeners p) p.

(** One run of the interval callback.  [href] is what reading
    [CONFIG.iframe.contentWindow.location.href] gives: [None] when the
    read raises (a cross-origin iframe), the address otherwise. *)
Definition urlTick (href : option str) (p : Page) : Page :=
  match urlChecker p with
  | Some (true, lastUrl) =>
      match href with
      | None => p
      | Some currentUrl =>
          if eqb currentUrl lastUrl then p
          else
            let p := setUrlChecker true currentUrl p in
            let p := log "URL changed:" [JStr currentUrl] p in
            if isSuccessUrl (Some currentUrl) then
              let p := log "Success detected via URL monitoring" [] p in
              let p := setUrlChecker false currentUrl p in
              triggerRedirect urlMonitoring p
            else p
      end
  | _ => p
  end.

(** *** Method 3: the mutation observer *)

(** A DOM node as the observer callback reads it; [None] is [null] or
    [undefined]. *)
Record Node : Type := {
  nodeType : nat;
  textContent : option str;
  innerText : option str
}.

Record MutationRecord : Type := { addedNodes : list Node }.

Definition setupMutationObserver (p : Page) : Result :=
  Returned
    (log "Mutation observer setup complete" []
       (Upd.detectors (messageListener p) (urlChecker p) (Some true)
          (loadListener p) (customListeners p) p)).

(** [observer.disconnect()] *)
Definition disconnect (p : Page) : Page :=
  Upd.detectors (messageListener p) (urlChecker p) (Some false)
    (loadListener p) (customListeners p) p.

(** [node.textContent || node.innerText || ''] *)
Definition nodeText (n : Node) : str :=
  match textContent n with
  | Some (a :: t) => a :: t
  | _ =>
      match innerText n with
      | Some (a :: t) => a :: t
      | _ => []
      end
  end.

(** The body of [mutation.addedNodes.forEach]. *)
Definition onAddedNode (p : Page) (n : Node) : Page :=
  if nodeType n =? 1 then
    if containsSuccessIndicator (Some (nodeText n)) then
      let p := log "Success detected via mutation observer" [] p in
      let p := disconnect p in
      triggerRedirect mutationObserver p
    else p
  else p.

(** The observer callback on one delivered batch of records; a
    disconnected observer is delivered nothing. *)
Definition onMutations (mutations : list MutationRecord) (p : Page) : Page :=
  match observer p with
  | Some true =>
      fold_left (fun q mutation => fold_left onAddedNode (addedNodes mutation) q)
        mutations p
  | _ => p
  end.

(** *** Method 4: the 'load' listener on the iframe *)

(** [CONFIG.iframe.addEventListener] raises a [TypeError] when
    [CONFIG.iframe] is null. *)
Definition setupNavigationWatcher (p : Page) : Result :=
  if iframe p then
    Returned
      (log "Navigation watcher setup complete" []
         (Upd.detectors (messageListener p) (urlChecker p) (observer p)
            true (customListeners p) p))
  else Thrown (JStr (lit "TypeError")) p.

Definition onLoad (href : option str) (p : Page) : Page :=
  if negb (loadListener p) then p
  else
    let p := log "Iframe loaded/reloaded" [] p in
    match href with
    | None => p
    | Some url =>
        if isSuccessUrl (Some url) then
          triggerRedirect navigationWatcher
            (log "Success detected via navigation watcher" [] p)
        else p
    end.

(** *** Method 5: the custom event listeners *)

Definition eventNames : list str :=
  [ lit "appointmentBooked"; lit "bookingComplete"; lit "bookingSuccess";
    lit "appointmentSubmitted"; lit "formSubmitted" ].

Definition setupCustomEventListener (p : Page) : Result :=
  Returned
    (log "Custom event listeners setup complete" []
       (Upd.detectors (messageListener p) (urlChecker p) (observer p)
          (loadListener p) (customListeners p ++ eventNames) p)).

(** An event named [eventName] with [event.detail = detail] reaches the
    window. *)
Definition onCustomEvent (eventName : str) (detail : JsValue) (p : Page) : Page :=
  if existsb (eqb eventName) (customListeners p) then
    triggerRedirect customEvent
      (log "Custom event detected:" [JStr eventName; detail] p)
  else p.

(** [window.triggerManualRedirect()] *)
Definition triggerManualRedirect (p : Page) : Page :=
  triggerRedirect manual (log "Manual redirect triggered" [] p).

(** *** Initialisation *)

(** What [document.getElementById] finds: whether the element
    'booking-iframe' exists, and the element 'loadingOverlay' if any. *)
Record Document : Type := {
  bookingIframe : bool;
  overlayElement : option bool
}.

(** [init()] *)
Definition init (d : Document) (p : Page) : Result :=
  let p := Upd.elements (bookingIframe d) (overlayElement d) p in
  if negb (iframe p) then Returned (error "Booking iframe not found" p)
  else
    Returned (log "Redirect handler initialized" [] p) ;;
    setupPostMessageListener ;;
    setupUrlMonitoring ;;
    setupMutationObserver ;;
    setupNavigationWatcher ;;
    setupCustomEventListener.

(** ** The event loop *)

Inductive Event : Type :=
| EvMessage (origin : str) (data : JsValue)
| EvUrlTick (href : option str)
| EvMutations (mutations : list MutationRecord)
| EvLoad (href : option str)
| EvCustom (eventName : str) (detail : JsValue)
| EvManual
| EvElapse (dt : nat).

Definition step (p : Page) (e : Event) : Page :=
  match e with
  | EvMessage origin data => onMessage origin data p
  | EvUrlTick href => urlTick href p
  | EvMutations mutations => onMutations mutations p
  | EvLoad href => onLoad href p
  | EvCustom eventName detail => onCustomEvent eventName detail p
  | EvManual => triggerManualRedirect p
  | EvElapse dt => elapse dt p
  end.

Definition run (events : list Event) (p : Page) : Page :=
  fold_left step events p.

(** A history seen by the dispatcher alone: calls of [triggerRedirect]
    and the passing of time. *)
Inductive Op : Type :=
| Call (method : Method)
| Wait (dt : nat).

Definition apply (p : Page) (o : Op) : Page :=
  match o with
  | Call method => triggerRedirect method p
  | Wait dt => elapse dt p
  end.

Definition perform (ops : list Op) (p : Page) : Page :=
  fold_left apply ops p.

Definition isCall (o : Op) : bool :=
  match o with Call _ => true | Wait _ => false end.

(** The number of calls in a history. *)
Definition calls (ops : list Op) : nat := List.length (filter isCall ops).

End Handler.

(** ** What the claims say, in their own words *)

(** [t] occurs in [s]. *)
Definition occurs (t s : str) : Prop :=
  exists pre post, s = pre ++ t ++ post.

(** [t] occurs in [s] when the case of letters is ignored: some stretch
    of [s] and [t] have the same lower-case form. *)
Definition occursIgnoringCase (t s : str) : Prop :=
  exists pre w post, s = pre ++ w ++ post /\ toLowerCase w = toLowerCase t.

(** Some token of the success vocabulary occurs in [s], case ignored. *)
Definition mentionsSuccess (s : str) : Prop :=
  exists t, In t SUCCESS_INDICATORS /\ occursIgnoringCase t s.


(** The shortcuts as the source tests them: a [success] field identical
    to [true], a [status] field identical to 'success' or a [type] field
    identical to 'bookingComplete', on a value whose type is 'object'. *)
Definition strictShortcut (data : JsValue) : bool :=
  typeof_object data &&
  (is_true (getProp data (lit "success")) ||
   is_string (getProp data (lit "status")) (lit "success") ||
   is_string (getProp data (lit "type")) (lit "bookingComplete")).

(** Payloads with a truthy [success] field that is not [true]: a BigInt
    in an object, a number set on an array. *)
Definition bigIntSuccess : JsValue := JObj [(lit "success", JBigInt 1)].


(** An object that holds a reference to itself. *)
Definition selfReferring : JsValue :=
  JObj [(lit "success", JBool false); (lit "self", JCycle)].

(** A code unit that some token of the vocabulary contains. *)
Definition indicatorChar (x : ascii) : bool :=
  existsb (fun t => existsb (Ascii.eqb x) t) SUCCESS_INDICATORS.

(** The dispatcher before its first call: no attempt counted, no call
    made, no timeout pending, no navigation done. *)
Definition pristine (p : Page) : Prop :=
  redirectAttempts p = 0 /\ dispatched p = [] /\
  timers p = [] /\ navigations p = [].

(** The attempt counter counts the calls made, up to the ceiling. *)
Definition counted (c : Settings) (p : Page) : Prop :=
  redirectAttempts p =
  Nat.min (List.length (dispatched p)) (maxRedirectAttempts c).

(** Every accepted call has its timeout pending or its navigation done,
    every pending timeout is due within the delay, and every navigation
    done went to the configured address. *)
Definition scheduled (c : Settings) (p : Page) : Prop :=
  List.length (navigations p) + List.length (timers p) = redirectAttempts p /\
  Forall (fun t => t <= clock p + redirectDelay c) (timers p) /\
  navigations p = repeat (redirectUrl c) (List.length (navigations p)).

(** ** Pages and histories used as examples *)

(** The page once [init] has run on a document that has both the booking
    iframe and the overlay, with no analytics library loaded. *)
Definition startPage : Page :=
  match init {| bookingIframe := true; overlayElement := Some false |}
             (freshPage Absent Absent Absent) with
  | Returned p => p
  | Thrown _ p => p
  end.

(** The configuration of the source with a ceiling of one attempt. *)
Definition singleAttempt : Settings := {|
  redirectUrl := redirectUrl CONFIG;
  redirectDelay := redirectDelay CONFIG;
  checkInterval := checkInterval CONFIG;
  maxRedirectAttempts := 1
|}.

(** Two detectors report one after the other. *)
Definition burst : list Op := [Call postMessage; Call customEvent].

(** A document without the booking iframe. *)
Definition noIframe : Document :=
  {| bookingIframe := false; overlayElement := Some false |}.

(** Two element nodes whose text holds a token, added in one record. *)
Definition thankNode : Node :=
  {| nodeType := 1; textContent := Some (lit "Thank you"); innerText := None |}.

Definition bookedNode : Node :=
  {| nodeType := 1; textContent := Some (lit "Your slot is booked"); innerText := None |}.

Definition twoMatches : list MutationRecord :=
  [ {| addedNodes := [thankNode; bookedNode] |} ].

(** An added node the observer callback reports: an element whose text
    classifies positive. *)
Definition matching (n : Node) : bool :=
  (nodeType n =? 1) && containsSuccessIndicator (Some (nodeText n)).

(** The number of such nodes in a batch of records. *)
Definition matches (mutations : list MutationRecord) : nat :=
  List.length (filter matching (flat_map addedNodes mutations)).

(** What one setup function does to the fields [init] is judged by. *)
Definition setupEffect (setup : Page -> Result) (p : Page)
    (ml : bool) (uc : option (bool * str)) (ob : option bool) (ll : bool)
    (cl : list str) : Prop :=
  exists q,
    setup p = Returned q /\
    iframe q = iframe p /\ loadingOverlay q = loadingOverlay p /\
    messageListener q = ml /\ urlChecker q = uc /\ observer q = ob /\
    loadListener q = ll /\ customListeners q = cl.

(** ** The rest of the repository

    The console helpers of [testing-tools.js] that act on the handler,
    and the iframe height watcher of the advanced configuration file. *)

(** [forceRedirect()] of [testing-tools.js].  [handlerLoaded] says
    whether [typeof window.triggerManualRedirect === 'function']; without
    the handler the tool assigns [window.location.href] itself. *)
Definition forceRedirect (c : Settings) (handlerLoaded : bool) (p : Page) : Page :=
  let p := log "Forcing redirect..." [] p in
  if handlerLoaded then triggerManualRedirect c p
  else
    Upd.time (clock p) (timers p)
      (navigations p ++
       [lit "https://studentmarketing.agency/thanks-appointment/"]) p.

(** The payload [simulatePostMessage()] posts. *)
Definition simulatedData : JsValue :=
  JObj [ (lit "type", JStr (lit "bookingComplete"));
         (lit "success", JBool true);
         (lit "bookingId", JStr (lit "test-123")) ].

(** The message event that [window.postMessage(data, '*')] of
    [simulatePostMessage()] makes the window deliver to itself: its
    origin is the origin of the page the tool runs on. *)
Definition simulatedMessage (pageOrigin : str) : Event :=
  EvMessage pageOrigin simulatedData.

(** What [detectIframeSizeChange] prints. *)
Inductive SizeLine : Type :=
| HeightChanged (lastHeight currentHeight : N)
| SignificantReduction.

(** The interval of [detectIframeSizeChange]: its [lastHeight] and what
    it has printed, oldest first. *)
Record SizeWatch : Type := { lastHeight : N; sizeLog : list SizeLine }.

(** [detectIframeSizeChange()]; [offsetHeight] is [None] when the iframe
    element is missing, and then no interval is set. *)
Definition detectIframeSizeChange (offsetHeight : option N) : option SizeWatch :=
  match offsetHeight with
  | None => None
  | Some h => Some {| lastHeight := h; sizeLog := [] |}
  end.

(** One run of the interval callback with [iframe.offsetHeight =
    currentHeight].  Heights are whole numbers, for which
    [currentHeight < lastHeight * 0.5] is [2 * currentHeight < lastHeight];
    the comparison reads [lastHeight] after the assignment before it. *)
Definition sizeTick (w : SizeWatch) (currentHeight : N) : SizeWatch :=
  if N.eqb currentHeight (lastHeight w) then w
  else
    let w :=
      {| lastHeight := lastHeight w;
         sizeLog := sizeLog w ++ [HeightChanged (lastHeight w) currentHeight] |} in
    let w := {| lastHeight := currentHeight; sizeLog := sizeLog w |} in
    if N.ltb (2 * currentHeight) (lastHeight w) then
      {| lastHeight := lastHeight w;
         sizeLog := sizeLog w ++ [SignificantReduction] |}
    else w.

(** The 'height changed' lines a sequence of heights calls for: one for
    every height that differs from the one before it. *)
Fixpoint heightChanges (lastHeight : N) (heights : list N) : list SizeLine :=
  match heights with
  | [] => []
  | h :: r =>
      if N.eqb h lastHeight then heightChanges lastHeight r
      else HeightChanged lastHeight h :: heightChanges h r
  end.

Definition isSignificant (l : SizeLine) : bool :=
  match l with SignificantReduction => true | HeightChanged _ _ => false end.

(** ** Descriptions used by the further properties *)

(** The analytics calls [trackRedirect] gets to make: the defined
    globals in order, up to and including the first that raises. *)
Fixpoint attempted (l : list (Provider * AnalyticsCall)) : list AnalyticsCall :=
  match l with
  | [] => []
  | (Absent, _) :: r => attempted r
  | (Works, a) :: r => a :: attempted r
  | (Throws _, a) :: _ => [a]
  end.

(** What the first raising global among the defined ones raises. *)
Fixpoint raised (l : list (Provider * AnalyticsCall)) : option JsValue :=
  match l with
  | [] => None
  | (Throws e, _) :: _ => Some e
  | _ :: r => raised r
  end.

(** The vocabulary without its last token. *)
Definition coreIndicators : list str :=
  [ lit "thank"; lit "success"; lit "confirm"; lit "complete";
    lit "booked"; lit "scheduled" ].

(** The number of loads whose address read succeeds and classifies
    positive. *)
Definition successLoads (hrefs : list (option str)) : nat :=
  List.length (filter isSuccessUrl hrefs).

(** The fields of the dispatcher, which no setup function touches. *)
Definition dispatcherOf (p : Page) : nat * list nat * list str * list Method * nat :=
  (redirectAttempts p, timers p, navigations p, dispatched p, clock p).

(** ** Proof steps shared by the lemmas on pages *)

(** Read the fields of an updated page: a projection is reduced through
    the updates under it, down to the field it reads. *)
Ltac project :=
  cbn [Upd.reported Upd.attempts Upd.printed Upd.called Upd.time Upd.elements
       Upd.detectors setTimeout showOverlay logStr log error tryCatch andThen
       callIfDefined disconnect setUrlChecker
       iframe loadingOverlay redirectAttempts gtag ga fbq analytics console
       clock timers navigations dispatched messageListener urlChecker
       observer loadListener customListeners] in *.

(** * Properties *)

(** ** Substrings *)

Lemma eqb_eq (a b : str) : eqb a b = true <-> a = b.
Proof.
  unfold eqb. destruct (list_eq_dec ascii_dec a b); split; congruence.
Qed.

Lemma eqb_refl (a : str) : eqb a a = true.
Proof. apply eqb_eq. reflexivity. Qed.

Lemma startsWith_spec (t s : str) :
  startsWith t s = true <-> exists post, s = t ++ post.
Proof.
  revert s. induction t as [|a t IH]; intros s; simpl.
  - split; [intros _; exists s; reflexivity | reflexivity].
  - destruct s as [|b s].
    + split; [discriminate | intros [post H]; discriminate].
    + destruct (ascii_dec a b) as [->|Hne].
      * rewrite IH. split; intros [post H]; exists post; congruence.
      * split; [discriminate | intros [post H]; congruence].
Qed.

Lemma includes_spec (s t : str) : includes s t = true <-> occurs t s.
Proof.
  unfold occurs. induction s as [|b s IH]; simpl.
  - rewrite orb_false_r, startsWith_spec. split.
    + intros [post H]. exists [], post. exact H.
    + intros [pre [post H]]. destruct pre as [|x pre]; [|discriminate].
      exists post. exact H.
  - rewrite orb_true_iff, startsWith_spec, IH. split.
    + intros [[post H] | [pre [post H]]].
      * exists [], post. exact H.
      * exists (b :: pre), post. simpl. congruence.
    + intros [pre [post H]]. destruct pre as [|x pre].
      * left. exists post. exact H.
      * right. exists pre, post. simpl in H. congruence.
Qed.

Lemma occurs_refl (s : str) : occurs s s.
Proof. exists [], []. rewrite app_nil_r. reflexivity. Qed.

Lemma occurs_trans (a b d : str) : occurs a b -> occurs b d -> occurs a d.
Proof.
  intros [p1 [q1 ->]] [p2 [q2 ->]].
  exists (p2 ++ p1), (q1 ++ q2). rewrite <- !app_assoc. reflexivity.
Qed.

Lemma occurs_app_l (t a b : str) : occurs t a -> occurs t (a ++ b).
Proof.
  intros [p1 [q1 ->]]. exists p1, (q1 ++ b). rewrite <- !app_assoc. reflexivity.
Qed.

Lemma occurs_app_r (t a b : str) : occurs t b -> occurs t (a ++ b).
Proof.
  intros [p1 [q1 ->]]. exists (a ++ p1), q1. rewrite <- !app_assoc. reflexivity.
Qed.

Lemma occurs_cons (t : str) (x : ascii) (b : str) : occurs t b -> occurs t (x :: b).
Proof. apply (occurs_app_r t [x] b). Qed.

Lemma occurs_join (sep t x : str) (l : list str) :
  In x l -> occurs t x -> occurs t (join sep l).
Proof.
  induction l as [|y l IH]; intros Hin Ht; [contradiction|].
  destruct l as [|z l].
  - destruct Hin as [->|[]]. exact Ht.
  - change (join sep (y :: z :: l)) with (y ++ sep ++ join sep (z :: l)).
    destruct Hin as [->|Hin].
    + apply occurs_app_l. exact Ht.
    + apply occurs_app_r, occurs_app_r. apply IH; assumption.
Qed.

Lemma toLowerCase_app (a b : str) :
  toLowerCase (a ++ b) = toLowerCase a ++ toLowerCase b.
Proof. apply map_app. Qed.

Lemma occurs_toLowerCase (a b : str) :
  occurs a b -> occurs (toLowerCase a) (toLowerCase b).
Proof.
  intros [pre [post ->]]. exists (toLowerCase pre), (toLowerCase post).
  rewrite !toLowerCase_app. reflexivity.
Qed.

(** Lowering is done code unit by code unit, so an occurrence in the
    lowered text is a stretch of the text that lowers to the token. *)
Lemma occurs_lowered (t s : str) :
  occurs t (toLowerCase s) <->
  exists pre w post, s = pre ++ w ++ post /\ toLowerCase w = t.
Proof.
  unfold occurs, toLowerCase. split.
  - intros [pre [post H]].
    apply map_eq_app in H. destruct H as [l1 [l2 [-> [H1 H2]]]].
    apply map_eq_app in H2. destruct H2 as [l3 [l4 [-> [H3 H4]]]].
    exists l1, l3, l4. split; [reflexivity | exact H3].
  - intros [pre [w [post [-> H]]]].
    exists (map lower_char pre), (map lower_char post).
    rewrite !map_app, H. reflexivity.
Qed.

(** ** The vocabulary *)

Lemma indicators_lower :
  forallb (fun t => eqb (toLowerCase t) t) SUCCESS_INDICATORS = true.
Proof. vm_compute. reflexivity. Qed.

Lemma indicator_lower (t : str) : In t SUCCESS_INDICATORS -> toLowerCase t = t.
Proof.
  intros Hin. pose proof indicators_lower as H.
  rewrite forallb_forall in H. apply eqb_eq, H, Hin.
Qed.

Lemma someIndicator_spec (s : str) :
  someIndicator s = true <-> exists t, In t SUCCESS_INDICATORS /\ occurs t s.
Proof.
  unfold someIndicator. rewrite existsb_exists.
  split; intros [t [Hin H]]; exists t; (split; [exact Hin|]);
    apply includes_spec; exact H.
Qed.

Lemma someIndicator_lower (s : str) :
  someIndicator (toLowerCase s) = true <-> mentionsSuccess s.
Proof.
  rewrite someIndicator_spec. unfold mentionsSuccess, occursIgnoringCase.
  split; intros [t [Hin H]]; exists t; (split; [exact Hin|]).
  - apply occurs_lowered in H. rewrite (indicator_lower _ Hin). exact H.
  - apply occurs_lowered. rewrite (indicator_lower _ Hin) in H. exact H.
Qed.

Lemma containsSuccessIndicator_some (s : str) :
  containsSuccessIndicator (Some s) = someIndicator (toLowerCase s).
Proof. destruct s; reflexivity. Qed.

Lemma isSuccessUrl_some (s : str) :
  isSuccessUrl (Some s) = someIndicator (toLowerCase s).
Proof. destruct s; reflexivity. Qed.

(** C6.  [containsSuccessIndicator] and [isSuccessUrl] answer true exactly
    when some token of the success vocabulary occurs in the input with
    the case of letters ignored, and they answer false, raising nothing,
    on the empty string and on [undefined]. *)
Theorem C6_text_and_url_classification :
  (forall s : str,
      (containsSuccessIndicator (Some s) = true <-> mentionsSuccess s) /\
      (isSuccessUrl (Some s) = true <-> mentionsSuccess s)) /\
  containsSuccessIndicator (Some []) = false /\
  containsSuccessIndicator None = false /\
  isSuccessUrl (Some []) = false /\
  isSuccessUrl None = false.
Proof.
  split; [|repeat split; reflexivity].
  intros s. rewrite containsSuccessIndicator_some, isSuccessUrl_some.
  split; apply someIndicator_lower.
Qed.

(** Scenario 1 of the specification, on the vocabulary of the source. *)
Example scenario1_thank_you_url :
  isSuccessUrl (Some (lit "https://x.com/thank-you")) = true /\
  isSuccessUrl (Some (lit "https://X.COM/BOOKED")) = true /\
  isSuccessUrl (Some (lit "https://x.com/book")) = false.
Proof. vm_compute. repeat split. Qed.

(** ** Serialisation *)

Lemma indicatorChar_in (t : str) (x : ascii) :
  In t SUCCESS_INDICATORS -> In x t -> indicatorChar x = true.
Proof.
  intros Ht Hx. unfold indicatorChar. apply existsb_exists.
  exists t. split; [exact Ht|]. apply existsb_exists.
  exists x. split; [exact Hx | apply Ascii.eqb_refl].
Qed.

(** A code unit that lowers to a code unit of a token is a letter or a
    hyphen, and JSON writes it as it is. *)
Lemma escape_char_indicator (x : ascii) :
  indicatorChar (lower_char x) = true -> Json.escape_char x = [x].
Proof.
  destruct x as [b0 b1 b2 b3 b4 b5 b6 b7].
  destruct b0, b1, b2, b3, b4, b5, b6, b7; vm_compute;
    solve [reflexivity | discriminate].
Qed.

Lemma escape_lowered_indicator (t w : str) :
  In t SUCCESS_INDICATORS -> toLowerCase w = t -> Json.escape w = w.
Proof.
  intros Ht Hw.
  assert (Hall : forall x, In x w -> Json.escape_char x = [x]).
  { intros x Hx. apply escape_char_indicator, (indicatorChar_in t _ Ht).
    rewrite <- Hw. apply in_map. exact Hx. }
  clear Hw. unfold Json.escape. induction w as [|x w IH]; [reflexivity|].
  simpl. rewrite (Hall x (or_introl eq_refl)). simpl. f_equal.
  apply IH. intros y Hy. apply Hall. right. exact Hy.
Qed.

Lemma escape_app (a b : str) : Json.escape (a ++ b) = Json.escape a ++ Json.escape b.
Proof. apply flat_map_app. Qed.

(** A token found in a key, case ignored, is found in the quoted key. *)
Lemma occurs_lower_quote (t k : str) :
  In t SUCCESS_INDICATORS ->
  occurs t (toLowerCase k) -> occurs t (toLowerCase (Json.quote k)).
Proof.
  intros Ht Hk. apply occurs_lowered in Hk.
  destruct Hk as [pre [w [post [-> Hw]]]].
  unfold Json.quote. rewrite !escape_app, (escape_lowered_indicator _ _ Ht Hw).
  change (toLowerCase (?x :: ?r)) with (lower_char x :: toLowerCase r).
  apply occurs_cons. rewrite <- !app_assoc, !toLowerCase_app.
  apply occurs_app_r, occurs_app_l. rewrite Hw. apply occurs_refl.
Qed.

Lemma stringify_object (props : list (str * JsValue)) :
  Json.stringify (JObj props) =
  match Json.members props with
  | Some l => Json.Text (lit "{" ++ join (lit ",") l ++ lit "}")
  | None => Json.Raises
  end.
Proof. reflexivity. Qed.

Lemma members_cons (k : str) (x : JsValue) (r : list (str * JsValue)) :
  Json.members ((k, x) :: r) =
  match Json.stringify x with
  | Json.Text t => Json.consMember (Json.quote k ++ lit ":" ++ t) (Json.members r)
  | Json.NoText => Json.members r
  | Json.Raises => None
  end.
Proof. reflexivity. Qed.

(** Only [undefined] renders as [undefined]. *)
Lemma stringify_noText (v : JsValue) : Json.stringify v = Json.NoText -> v = JUndefined.
Proof.
  destruct v as [| |[|]| | | |elems named|props|]; intros H;
    try reflexivity; try discriminate H.
  - simpl in H.
    match type of H with
    | match ?x with _ => _ end = _ => destruct x; discriminate H
    end.
  - rewrite stringify_object in H. destruct (Json.members props); discriminate H.
Qed.

Lemma members_in (props : list (str * JsValue)) (k : str) (v : JsValue)
    (t : str) (l : list str) :
  In (k, v) props -> Json.stringify v = Json.Text t ->
  Json.members props = Some l ->
  In (Json.quote k ++ lit ":" ++ t) l.
Proof.
  revert l. induction props as [|[k' v'] r IH]; intros l Hin Hv Hl; [contradiction|].
  rewrite members_cons in Hl. destruct Hin as [Heq|Hin].
  - inversion Heq; subst. rewrite Hv in Hl.
    destruct (Json.members r) as [l'|]; [|discriminate Hl].
    injection Hl as <-. left. reflexivity.
  - destruct (Json.stringify v') as [t'| |]; [| |discriminate Hl].
    + destruct (Json.members r) as [l'|]; [|discriminate Hl].
      injection Hl as <-. right. apply IH; [exact Hin | exact Hv | reflexivity].
    + apply IH; assumption.
Qed.

(** A value that raises makes the object around it raise. *)
Lemma members_raises (props : list (str * JsValue)) (k : str) (v : JsValue) :
  In (k, v) props -> Json.stringify v = Json.Raises -> Json.members props = None.
Proof.
  induction props as [|[k' v'] r IH]; intros Hin Hv; [contradiction|].
  rewrite members_cons. destruct Hin as [Heq|Hin].
  - inversion Heq; subst. rewrite Hv. reflexivity.
  - rewrite (IH Hin Hv). destruct (Json.stringify v'); reflexivity.
Qed.

(** The name of a property that is written out is part of the text the
    classifier searches. *)
Lemma key_indicator_serialized (props : list (str * JsValue)) (k : str)
    (v : JsValue) (t s : str) :
  In (k, v) props -> v <> JUndefined ->
  In t SUCCESS_INDICATORS -> occurs t (toLowerCase k) ->
  Json.stringify (JObj props) = Json.Text s ->
  someIndicator (toLowerCase s) = true.
Proof.
  intros Hin Hv Ht Hk Hs. rewrite stringify_object in Hs.
  destruct (Json.members props) as [l|] eqn:Hl; [|discriminate Hs].
  injection Hs as <-. apply someIndicator_spec. exists t. split; [exact Ht|].
  destruct (Json.stringify v) as [sv| |] eqn:Hsv.
  - apply (occurs_trans _ (toLowerCase (Json.quote k ++ lit ":" ++ sv))).
    + rewrite toLowerCase_app. apply occurs_app_l, occurs_lower_quote; assumption.
    + apply occurs_toLowerCase.
      apply (occurs_app_r _ (lit "{")), occurs_app_l.
      apply (occurs_join _ _ (Json.quote k ++ lit ":" ++ sv)).
      * apply (members_in props k v sv l); assumption.
      * apply occurs_refl.
  - apply stringify_noText in Hsv. contradiction.
  - rewrite (members_raises props k v Hin Hsv) in Hl. discriminate Hl.
Qed.




(** ** The message classifier *)

Lemma isSuccessMessage_object (props : list (str * JsValue)) :
  isSuccessMessage (JObj props) =
  if is_true (lookup (lit "success") props) then Some true
  else if is_string (lookup (lit "status") props) (lit "success") then Some true
  else if is_string (lookup (lit "type") props) (lit "bookingComplete") then Some true
  else
    match Json.stringify (JObj props) with
    | Json.Text s => Some (someIndicator (toLowerCase s))
    | _ => None
    end.
Proof.
  unfold isSuccessMessage. cbn [truthy negb typeof_object andb getProp].
  destruct (Json.stringify (JObj props)); reflexivity.
Qed.

(** A plain object with a property that is written out and whose name
    holds a token: true, unless no shortcut applies and serialising
    raises. *)
Lemma object_with_indicator_key (props : list (str * JsValue)) (k : str)
    (v : JsValue) (t : str) :
  In (k, v) props -> v <> JUndefined ->
  In t SUCCESS_INDICATORS -> occurs t (toLowerCase k) ->
  isSuccessMessage (JObj props) =
  if strictShortcut (JObj props) then Some true
  else
    match Json.stringify (JObj props) with
    | Json.Text _ => Some true
    | _ => None
    end.
Proof.
  intros Hin Hv Ht Hk. rewrite isSuccessMessage_object.
  unfold strictShortcut. cbn [typeof_object andb getProp].
  destruct (is_true _); [reflexivity|].
  destruct (is_string _ (lit "success")); [reflexivity|].
  destruct (is_string _ (lit "bookingComplete")); [reflexivity|].
  cbn [orb].
  destruct (Json.stringify (JObj props)) as [s| |] eqn:Hs; try reflexivity.
  f_equal. apply (key_indicator_serialized props k v t); assumption.
Qed.



(** A shortcut returns before the payload is serialised: an object with
    [success === true] is classified true also when another of its
    fields holds a BigInt, on which serialising would raise. *)
Example shortcut_before_serialisation :
  isSuccessMessage (JObj [(lit "success", JBool true); (lit "count", JBigInt 5)]) =
    Some true /\
  isSuccessMessage (JObj [(lit "count", JBigInt 5)]) = None.
Proof. vm_compute. split; reflexivity. Qed.


(** C10 as stated fails: an object whose only property is named
    [success] and holds [undefined] is classified negative, because
    [JSON.stringify] leaves the property out; and an object with a
    [success] property that holds a BigInt, or that refers to itself,
    is not classified at all, because [JSON.stringify] raises. *)
Lemma C10_counterexample_undefined_property :
  In (lit "success", JUndefined) [(lit "success", JUndefined)] /\
  includes (toLowerCase (lit "success")) (lit "success") = true /\
  isSuccessMessage (JObj [(lit "success", JUndefined)]) = Some false /\
  isSuccessMessage bigIntSuccess = None /\
  isSuccessMessage selfReferring = None.
Proof. vm_compute. repeat split. left. reflexivity. Qed.

(** C10, amended.  A plain object with a property whose value is not
    [undefined] and whose name contains a token of the vocabulary, case
    ignored, is classified positive whenever it is classified at all:
    [isSuccessMessage] returns true if a shortcut of the source applies
    or [JSON.stringify] renders the object, the property names being
    part of the text that is searched; with no shortcut and a payload
    [JSON.stringify] raises on, the [TypeError] comes out of
    [isSuccessMessage]. *)
Theorem C10_property_name_classifies_positive
    (props : list (str * JsValue)) (k : str) (v : JsValue) (t : str) :
  In (k, v) props -> v <> JUndefined ->
  In t SUCCESS_INDICATORS -> includes (toLowerCase k) t = true ->
  isSuccessMessage (JObj props) =
  if strictShortcut (JObj props) then Some true
  else
    match Json.stringify (JObj props) with
    | Json.Text _ => Some true
    | _ => None
    end.
Proof.
  intros Hin Hv Ht Hk.
  apply (object_with_indicator_key props k v t); try assumption.
  apply includes_spec, Hk.
Qed.

(** C10, amended, at the payload whose [success] field is false. *)
Lemma C10_witness_success_false :
  isSuccessMessage (JObj [(lit "success", JBool false)]) = Some true.
Proof.
  rewrite (C10_property_name_classifies_positive
             [(lit "success", JBool false)] (lit "success") (JBool false)
             (lit "success")).
  - reflexivity.
  - left. reflexivity.
  - discriminate.
  - right. left. reflexivity.
  - vm_compute. reflexivity.
Defined.

(** ** The dispatcher *)

Section Dispatcher.

Variable c : Settings.

(** What [trackRedirect] leaves alone: everything but the analytics
    calls and the console. *)
Lemma trackRedirect_frame (m : Method) (p : Page) :
  let q := trackRedirect c m p in
  iframe q = iframe p /\ loadingOverlay q = loadingOverlay p /\
  redirectAttempts q = redirectAttempts p /\ clock q = clock p /\
  timers q = timers p /\ navigations q = navigations p /\
  dispatched q = dispatched p /\ messageListener q = messageListener p /\
  urlChecker q = urlChecker p /\ observer q = observer p /\
  loadListener q = loadListener p /\ customListeners q = customListeners p.
Proof.
  destruct p as [i o n g1 g2 g3 an co cl ti na di ml uc ob ll cu].
  unfold trackRedirect. project.
  destruct g1, g2, g3; project; repeat split; reflexivity.
Qed.

(** A call below the ceiling. *)
Lemma triggerRedirect_accepted (m : Method) (p : Page) :
  redirectAttempts p < maxRedirectAttempts c ->
  let q := triggerRedirect c m p in
  redirectAttempts q = S (redirectAttempts p) /\
  timers q = timers p ++ [clock p + redirectDelay c] /\
  clock q = clock p /\ navigations q = navigations p /\
  dispatched q = dispatched p ++ [m] /\
  loadingOverlay q = option_map (fun _ => true) (loadingOverlay p) /\
  iframe q = iframe p /\ messageListener q = messageListener p /\
  urlChecker q = urlChecker p /\ observer q = observer p /\
  loadListener q = loadListener p /\ customListeners q = customListeners p.
Proof.
  intros Hlt. unfold triggerRedirect. cbv zeta.
  replace (maxRedirectAttempts c <=? redirectAttempts (Upd.reported m p))
    with false
    by (symmetry; apply Nat.leb_gt; project; exact Hlt).
  match goal with
  | |- context [trackRedirect c m ?r] =>
      pose proof (trackRedirect_frame m r) as F; set (t := trackRedirect c m r) in *
  end.
  cbv zeta in F.
  destruct F as (F1 & F2 & F3 & F4 & F5 & F6 & F7 & F8 & F9 & F10 & F11 & F12).
  project.
  rewrite F1, F2, F3, F4, F5, F6, F7, F8, F9, F10, F11, F12.
  destruct p as [i o n g1 g2 g3 an co cl ti na di ml uc ob ll cu].
  project. destruct o; project; repeat split; reflexivity.
Qed.

(** A call at the ceiling: one console line, and the call itself. *)
Lemma triggerRedirect_rejected (m : Method) (p : Page) :
  maxRedirectAttempts c <= redirectAttempts p ->
  triggerRedirect c m p =
  log "Max redirect attempts reached" [] (Upd.reported m p).
Proof.
  intros Hle. unfold triggerRedirect.
  replace (maxRedirectAttempts c <=? redirectAttempts (Upd.reported m p))
    with true
    by (symmetry; apply Nat.leb_le; project; exact Hle).
  reflexivity.
Qed.

Lemma triggerRedirect_rejected_frame (m : Method) (p : Page) :
  maxRedirectAttempts c <= redirectAttempts p ->
  let q := triggerRedirect c m p in
  redirectAttempts q = redirectAttempts p /\
  analytics q = analytics p /\ loadingOverlay q = loadingOverlay p /\
  timers q = timers p /\ navigations q = navigations p /\
  clock q = clock p /\ dispatched q = dispatched p ++ [m].
Proof.
  intros Hle. cbv zeta. rewrite (triggerRedirect_rejected m p Hle).
  project. repeat split; reflexivity.
Qed.

Lemma triggerRedirect_counted (m : Method) (p : Page) :
  counted c p -> counted c (triggerRedirect c m p).
Proof.
  unfold counted. intros H.
  destruct (Nat.lt_ge_cases (redirectAttempts p) (maxRedirectAttempts c)) as [Hlt|Hge].
  - destruct (triggerRedirect_accepted m p Hlt) as (A & _ & _ & _ & D & _).
    rewrite A, D, length_app. simpl. lia.
  - destruct (triggerRedirect_rejected_frame m p Hge) as (A & _ & _ & _ & _ & _ & D).
    rewrite A, D, length_app. simpl. lia.
Qed.

Lemma fold_navigate (l : list nat) (q : Page) :
  fold_left (fun r _ => navigate c r) l q =
  Upd.time (clock q) (timers q)
    (navigations q ++ repeat (redirectUrl c) (List.length l)) q.
Proof.
  revert q. induction l as [|x l IH]; intros q.
  - destruct q. project. simpl. rewrite app_nil_r. reflexivity.
  - cbn [fold_left]. rewrite IH. unfold navigate. project.
    rewrite <- app_assoc. reflexivity.
Qed.

(** Time passing moves the clock, drops the timeouts that are due and
    navigates once for each of them. *)
Lemma elapse_eq (dt : nat) (p : Page) :
  elapse c dt p =
  Upd.time (clock p + dt)
    (filter (fun t => negb (t <=? clock p + dt)) (timers p))
    (navigations p ++
     repeat (redirectUrl c)
       (List.length (filter (fun t => t <=? clock p + dt) (timers p)))) p.
Proof.
  unfold elapse. cbv zeta. rewrite fold_navigate.
  project. reflexivity.
Qed.

Lemma elapse_counted (dt : nat) (p : Page) : counted c p -> counted c (elapse c dt p).
Proof. rewrite elapse_eq. unfold counted. project. auto. Qed.

End Dispatcher.

(** ** Properties kept by every event *)

Section Kept.

Variable c : Settings.
Variable P : Page -> Prop.

Hypothesis kept_trigger : forall m p, P p -> P (triggerRedirect c m p).
Hypothesis kept_print : forall l p, P p -> P (Upd.printed l p).
Hypothesis kept_disconnect : forall p, P p -> P (disconnect p).
Hypothesis kept_urlTick : forall href p, P p -> P (urlTick c href p).
Hypothesis kept_elapse : forall dt p, P p -> P (elapse c dt p).

Lemma kept_log (t : string) (a : list JsValue) (p : Page) : P p -> P (log t a p).
Proof. apply kept_print. Qed.

Lemma kept_onAddedNode (n : Node) (p : Page) : P p -> P (onAddedNode c p n).
Proof.
  intros H. unfold onAddedNode.
  destruct (nodeType n =? 1); [|exact H].
  destruct (containsSuccessIndicator _); [|exact H].
  apply kept_trigger, kept_disconnect, kept_log, H.
Qed.

Lemma kept_addedNodes (l : list Node) (p : Page) :
  P p -> P (fold_left (onAddedNode c) l p).
Proof.
  revert p. induction l as [|n l IH]; intros p H; [exact H|].
  apply IH, kept_onAddedNode, H.
Qed.

Lemma kept_onMutations (mutations : list MutationRecord) (p : Page) :
  P p -> P (onMutations c mutations p).
Proof.
  intros H. unfold onMutations. destruct (observer p) as [[|]|]; try exact H.
  clear - H kept_trigger kept_disconnect kept_print.
  revert p H. induction mutations as [|r l IH]; intros p H; [exact H|].
  apply IH, kept_addedNodes, H.
Qed.

Lemma kept_step (e : Event) (p : Page) : P p -> P (step c p e).
Proof.
  intros H. destruct e as [origin data|href|mutations|href|name detail| |dt];
    cbn [step].
  - unfold onMessage. destruct (negb (messageListener p)); [exact H|].
    destruct (negb (includes origin _)); [exact H|].
    destruct (isSuccessMessage data) as [[|]|].
    + apply kept_trigger, kept_log, kept_log, H.
    + apply kept_log, H.
    + apply kept_log, H.
  - apply kept_urlTick, H.
  - apply kept_onMutations, H.
  - unfold onLoad. destruct (negb (loadListener p)); [exact H|].
    destruct href as [url|]; [|apply kept_log, H].
    destruct (isSuccessUrl (Some url)).
    + apply kept_trigger, kept_log, kept_log, H.
    + apply kept_log, H.
  - unfold onCustomEvent. destruct (existsb _ _); [|exact H].
    apply kept_trigger, kept_log, H.
  - apply kept_trigger, kept_log, H.
  - apply kept_elapse, H.
Qed.

Lemma kept_run (events : list Event) (p : Page) : P p -> P (run c events p).
Proof.
  unfold run. revert p. induction events as [|e l IH]; intros p H; [exact H|].
  apply IH, kept_step, H.
Qed.

End Kept.

Section Ceiling.

Variable c : Settings.

Lemma urlTick_counted (href : option str) (p : Page) :
  counted c p -> counted c (urlTick c href p).
Proof.
  intros H. unfold urlTick.
  destruct (urlChecker p) as [[[|] lastUrl]|]; try exact H.
  destruct href as [currentUrl|]; [|exact H].
  destruct (eqb currentUrl lastUrl); [exact H|]. cbv zeta.
  destruct (isSuccessUrl (Some currentUrl)); [apply triggerRedirect_counted|];
    unfold counted in *; project; exact H.
Qed.

Lemma run_counted (events : list Event) (p : Page) :
  counted c p -> counted c (run c events p).
Proof.
  apply kept_run.
  - apply triggerRedirect_counted.
  - intros l q H. unfold counted in *. project. exact H.
  - intros q H. unfold counted in *. project. exact H.
  - apply urlTick_counted.
  - apply elapse_counted.
Qed.

Lemma pristine_counted (p : Page) : pristine p -> counted c p.
Proof. intros (A & D & _). unfold counted. rewrite A, D. reflexivity. Qed.

(** C3.  From a dispatcher that has counted no attempt, after every
    history of events the attempt counter is at most
    [maxRedirectAttempts]: it is the number of calls of [triggerRedirect]
    made so far, capped at the ceiling.  A call below the ceiling adds
    exactly one to it at once, while the navigation of that call is
    still only a pending timeout. *)
Theorem C3_attempt_ceiling_invariant (p : Page) (events : list Event) :
  pristine p ->
  let q := run c events p in
  redirectAttempts q <= maxRedirectAttempts c /\
  redirectAttempts q = Nat.min (List.length (dispatched q)) (maxRedirectAttempts c) /\
  forall m,
    redirectAttempts q < maxRedirectAttempts c ->
    let q' := triggerRedirect c m q in
    redirectAttempts q' = S (redirectAttempts q) /\
    redirectAttempts q' <= maxRedirectAttempts c /\
    navigations q' = navigations q /\
    timers q' = timers q ++ [clock q + redirectDelay c].
Proof.
  intros Hp q.
  assert (Hq : counted c q) by (apply run_counted, pristine_counted, Hp).
  unfold counted in Hq. split; [lia|]. split; [exact Hq|].
  intros m Hlt q'.
  destruct (triggerRedirect_accepted c m q Hlt) as (A & T & _ & N & _).
  subst q'. rewrite A, T, N. repeat split. lia.
Qed.

End Ceiling.

(** ** Histories of the dispatcher *)

Lemma filter_split_length {A : Type} (f : A -> bool) (l : list A) :
  List.length (filter f l) + List.length (filter (fun x => negb (f x)) l) =
  List.length l.
Proof.
  induction l as [|x l IH]; [reflexivity|].
  simpl. destruct (f x); simpl; lia.
Qed.

Lemma filter_none {A : Type} (f : A -> bool) (l : list A) :
  Forall (fun x => f x = false) l -> filter f l = [].
Proof.
  induction 1 as [|x l Hx _ IH]; [reflexivity|].
  simpl. rewrite Hx. exact IH.
Qed.

Section History.

Variable c : Settings.

Lemma perform_app (a b : list Op) (p : Page) :
  perform c (a ++ b) p = perform c b (perform c a p).
Proof. apply fold_left_app. Qed.

Lemma calls_cons (o : Op) (ops : list Op) :
  calls (o :: ops) = (if isCall o then 1 else 0) + calls ops.
Proof. unfold calls. simpl. destruct (isCall o); reflexivity. Qed.

Lemma elapse_attempts (dt : nat) (p : Page) :
  redirectAttempts (elapse c dt p) = redirectAttempts p.
Proof. rewrite elapse_eq. reflexivity. Qed.

(** The attempt counter after a history: the calls made, capped. *)
Lemma perform_attempts (ops : list Op) (p : Page) :
  redirectAttempts p <= maxRedirectAttempts c ->
  redirectAttempts (perform c ops p) =
  Nat.min (redirectAttempts p + calls ops) (maxRedirectAttempts c).
Proof.
  revert p. induction ops as [|[m|dt] ops IH]; intros p Hle.
  - unfold calls. simpl. lia.
  - change (perform c (Call m :: ops) p)
      with (perform c ops (triggerRedirect c m p)).
    rewrite calls_cons. simpl isCall. cbv iota.
    destruct (Nat.lt_ge_cases (redirectAttempts p) (maxRedirectAttempts c)) as [Hlt|Hge].
    + destruct (triggerRedirect_accepted c m p Hlt) as (A & _).
      rewrite IH; rewrite A; lia.
    + destruct (triggerRedirect_rejected_frame c m p Hge) as (A & _).
      rewrite IH; rewrite A; lia.
  - change (perform c (Wait dt :: ops) p) with (perform c ops (elapse c dt p)).
    rewrite calls_cons. simpl isCall. cbv iota.
    rewrite IH; rewrite elapse_attempts; [reflexivity | exact Hle].
Qed.

Lemma triggerRedirect_scheduled (m : Method) (p : Page) :
  scheduled c p -> scheduled c (triggerRedirect c m p).
Proof.
  unfold scheduled. intros (L & F & N).
  destruct (Nat.lt_ge_cases (redirectAttempts p) (maxRedirectAttempts c)) as [Hlt|Hge].
  - destruct (triggerRedirect_accepted c m p Hlt) as (A & T & C & V & _).
    rewrite A, T, C, V, length_app. simpl. repeat split.
    + lia.
    + apply Forall_app. split; [exact F|]. constructor; [lia|constructor].
    + exact N.
  - destruct (triggerRedirect_rejected_frame c m p Hge) as (A & _ & _ & T & V & C & _).
    rewrite A, T, V, C. repeat split; assumption.
Qed.

Lemma elapse_scheduled (dt : nat) (p : Page) :
  scheduled c p -> scheduled c (elapse c dt p).
Proof.
  unfold scheduled. intros (L & F & N). rewrite elapse_eq.
  project. rewrite length_app, repeat_length. repeat split.
  - pose proof (filter_split_length (fun t => t <=? clock p + dt) (timers p)). lia.
  - rewrite Forall_forall in *. intros t Ht. apply filter_In in Ht.
    destruct Ht as [Ht _]. specialize (F t Ht). lia.
  - rewrite repeat_app. f_equal. exact N.
Qed.

Lemma perform_scheduled (ops : list Op) (p : Page) :
  scheduled c p -> scheduled c (perform c ops p).
Proof.
  unfold perform. revert p. induction ops as [|[m|dt] ops IH]; intros p H.
  - exact H.
  - apply IH, triggerRedirect_scheduled, H.
  - apply IH, elapse_scheduled, H.
Qed.

Lemma pristine_scheduled (p : Page) : pristine p -> scheduled c p.
Proof.
  intros (A & _ & T & N). unfold scheduled. rewrite A, T, N.
  repeat split. constructor.
Qed.

(** Once the delay has passed no timeout is left pending. *)
Lemma elapse_delay_timers (p : Page) :
  scheduled c p -> timers (elapse c (redirectDelay c) p) = [].
Proof.
  intros (_ & F & _). rewrite elapse_eq. project.
  apply filter_none. rewrite Forall_forall in *. intros t Ht.
  apply negb_false_iff, Nat.leb_le, F, Ht.
Qed.

(** The navigations done once every timeout of a history has run. *)
Lemma perform_then_wait (ops : list Op) (p : Page) :
  pristine p ->
  let q := perform c (ops ++ [Wait (redirectDelay c)]) p in
  timers q = [] /\
  navigations q =
  repeat (redirectUrl c) (Nat.min (calls ops) (maxRedirectAttempts c)).
Proof.
  intros Hp q. subst q. rewrite perform_app.
  change (perform c [Wait (redirectDelay c)] ?r) with (elapse c (redirectDelay c) r).
  pose proof (perform_scheduled ops p (pristine_scheduled p Hp)) as Hs.
  pose proof (elapse_delay_timers _ Hs) as Ht.
  destruct (elapse_scheduled (redirectDelay c) _ Hs) as (L & _ & N).
  rewrite Ht in L. simpl in L. rewrite Nat.add_0_r in L.
  rewrite elapse_attempts, perform_attempts in L
    by (destruct Hp as (A & _); rewrite A; lia).
  destruct Hp as (A & _). rewrite A in L. simpl in L.
  split; [exact Ht|]. rewrite N, L. reflexivity.
Qed.

(** C1.  The code on the configuration of the source, at a burst of two
    calls: both are accepted, each sets its own timeout, and when the
    timeouts run both assign [window.location.href].  The comment
    'Prevent multiple redirects' stands above a test that lets three
    calls through, and nothing at the scheduled time checks whether a
    navigation has been done: two navigations where one is promised. *)
Theorem C1_burst_navigates_twice :
  1 <= maxRedirectAttempts CONFIG /\ 1 <= calls burst /\
  redirectAttempts (perform CONFIG burst startPage) = 2 /\
  timers (perform CONFIG burst startPage) = [1500; 1500] /\
  navigations (perform CONFIG (burst ++ [Wait 1500]) startPage) =
  [redirectUrl CONFIG; redirectUrl CONFIG].
Proof. vm_compute. repeat split; repeat constructor. Qed.

(** The navigations of the dispatcher as it is written, for a page that
    lives on after an assignment to [window.location.href]: from a
    pristine dispatcher every navigation done goes to [redirectUrl],
    there are never more navigations than calls or than
    [maxRedirectAttempts], and once the delay has passed after the
    history the navigations done are as many as the calls, capped at the
    ceiling; exactly one only when the ceiling is one. *)
Lemma navigations_per_accepted_call (p : Page) (ops : list Op) :
  pristine p ->
  1 <= maxRedirectAttempts c ->
  1 <= calls ops ->
  let r := perform c ops p in
  let q := perform c (ops ++ [Wait (redirectDelay c)]) p in
  navigations r = repeat (redirectUrl c) (List.length (navigations r)) /\
  List.length (navigations r) <= Nat.min (calls ops) (maxRedirectAttempts c) /\
  navigations q =
    repeat (redirectUrl c) (Nat.min (calls ops) (maxRedirectAttempts c)) /\
  1 <= List.length (navigations q) <= maxRedirectAttempts c /\
  (maxRedirectAttempts c = 1 -> navigations q = [redirectUrl c]).
Proof.
  intros Hp Hmax Hcalls r q.
  destruct (perform_scheduled ops p (pristine_scheduled p Hp)) as (L & _ & N).
  fold r in L, N.
  assert (Ha : redirectAttempts r = Nat.min (calls ops) (maxRedirectAttempts c)).
  { subst r. rewrite perform_attempts; destruct Hp as (A & _); rewrite A; [reflexivity|lia]. }
  destruct (perform_then_wait ops p Hp) as (_ & Q). fold q in Q.
  split; [exact N|]. split; [lia|]. split; [exact Q|].
  rewrite Q, repeat_length. split; [lia|].
  intros H1. replace (Nat.min (calls ops) (maxRedirectAttempts c)) with 1 by lia.
  reflexivity.
Qed.

(** C2.  From a pristine dispatcher, after a history with at least
    [maxRedirectAttempts] calls the counter stands at the ceiling, and
    one more call changes nothing of the dispatcher: the counter, the
    analytics calls, the overlay, the pending timeouts, the navigations
    and the clock are as before.  All the call leaves is the console
    line 'Max redirect attempts reached'. *)
Theorem C2_call_at_ceiling_is_noop (p : Page) (ops : list Op) (m : Method) :
  pristine p ->
  maxRedirectAttempts c <= calls ops ->
  let q := perform c ops p in
  let q' := triggerRedirect c m q in
  redirectAttempts q = maxRedirectAttempts c /\
  redirectAttempts q' = redirectAttempts q /\
  analytics q' = analytics q /\
  loadingOverlay q' = loadingOverlay q /\
  timers q' = timers q /\
  navigations q' = navigations q /\
  clock q' = clock q /\
  q' = log "Max redirect attempts reached" [] (Upd.reported m q).
Proof.
  intros Hp Hcalls q q'.
  assert (Ha : redirectAttempts q = maxRedirectAttempts c).
  { subst q. rewrite perform_attempts; destruct Hp as (A & _); rewrite A; lia. }
  assert (Hge : maxRedirectAttempts c <= redirectAttempts q) by lia.
  destruct (triggerRedirect_rejected_frame c m q Hge) as (A & B & O & T & N & K & _).
  fold q' in A, B, O, T, N, K.
  repeat (split; [assumption|]).
  apply triggerRedirect_rejected, Hge.
Qed.

End History.

(** Scenario 2 of the specification: with a ceiling of one, two calls ten
    milliseconds apart leave the counter at one and navigate once. *)
Example scenario2_ceiling_of_one :
  let q := perform singleAttempt
             [Call postMessage; Wait 10; Call customEvent; Wait 1500] startPage in
  redirectAttempts q = 1 /\ navigations q = [redirectUrl CONFIG] /\ timers q = [].
Proof. vm_compute. repeat split. Qed.

(** One manual call on the configuration of the source. *)
Lemma navigations_of_one_manual_call :
  navigations (perform CONFIG ([Call manual] ++ [Wait (redirectDelay CONFIG)]) startPage) =
  repeat (redirectUrl CONFIG) (Nat.min (calls [Call manual]) (maxRedirectAttempts CONFIG)).
Proof.
  destruct (navigations_per_accepted_call CONFIG startPage [Call manual])
    as (_ & _ & Q & _).
  - vm_compute. repeat split.
  - vm_compute. lia.
  - vm_compute. lia.
  - exact Q.
Defined.

(** C2 at the fourth call on the configuration of the source. *)
Lemma C2_witness_fourth_call :
  redirectAttempts
    (triggerRedirect CONFIG manual
       (perform CONFIG [Call manual; Call postMessage; Call customEvent] startPage)) = 3.
Proof.
  destruct (C2_call_at_ceiling_is_noop CONFIG startPage
              [Call manual; Call postMessage; Call customEvent] manual)
    as (A & B & _).
  - vm_compute. repeat split.
  - vm_compute. lia.
  - rewrite B, A. reflexivity.
Defined.

(** ** The detectors *)

Section Detectors.

Variable c : Settings.

(** What a call of [triggerRedirect] does to the detectors, accepted or
    not: nothing, and the call is on record. *)
Lemma triggerRedirect_detectors (m : Method) (p : Page) :
  let q := triggerRedirect c m p in
  dispatched q = dispatched p ++ [m] /\
  messageListener q = messageListener p /\ urlChecker q = urlChecker p /\
  observer q = observer p /\ loadListener q = loadListener p /\
  customListeners q = customListeners p /\ iframe q = iframe p.
Proof.
  destruct (Nat.lt_ge_cases (redirectAttempts p) (maxRedirectAttempts c)) as [Hlt|Hge].
  - destruct (triggerRedirect_accepted c m p Hlt)
      as (_ & _ & _ & _ & D & _ & I & M & U & O & L & K).
    cbv zeta. repeat split; assumption.
  - cbv zeta. rewrite (triggerRedirect_rejected c m p Hge).
    project. repeat split; reflexivity.
Qed.

Lemma urlTick_throws (p : Page) : urlTick c None p = p.
Proof. unfold urlTick. destruct (urlChecker p) as [[[|] lastUrl]|]; reflexivity. Qed.

Lemma urlTick_stopped (href : option str) (u : str) (p : Page) :
  urlChecker p = Some (false, u) -> urlTick c href p = p.
Proof. intros H. unfold urlTick. rewrite H. reflexivity. Qed.

Lemma urlTick_running (p : Page) (lastUrl currentUrl : str) :
  urlChecker p = Some (true, lastUrl) ->
  urlTick c (Some currentUrl) p =
  if eqb currentUrl lastUrl then p
  else
    let p1 := log "URL changed:" [JStr currentUrl] (setUrlChecker true currentUrl p) in
    if isSuccessUrl (Some currentUrl) then
      triggerRedirect c urlMonitoring
        (setUrlChecker false currentUrl
           (log "Success detected via URL monitoring" [] p1))
    else p1.
Proof. intros H. unfold urlTick. rewrite H. reflexivity. Qed.

Lemma ticks_throwing (n : nat) (p : Page) :
  run c (repeat (EvUrlTick None) n) p = p.
Proof.
  induction n as [|n IH]; [reflexivity|].
  cbn [repeat]. unfold run in *. cbn [fold_left step].
  rewrite urlTick_throws. exact IH.
Qed.

(** A stopped interval stays stopped whatever happens next. *)
Lemma run_stopped (u : str) (events : list Event) (p : Page) :
  urlChecker p = Some (false, u) -> urlChecker (run c events p) = Some (false, u).
Proof.
  apply (kept_run c (fun q => urlChecker q = Some (false, u))).
  - intros m q H. destruct (triggerRedirect_detectors m q) as (_ & _ & U & _).
    rewrite U. exact H.
  - intros l q H. exact H.
  - intros q H. exact H.
  - intros href q H. rewrite (urlTick_stopped href u q H). exact H.
  - intros dt q H. rewrite elapse_eq. exact H.
Qed.

(** C9.  A tick of the address poller whose read raises leaves the page
    as it was: nothing is printed and [triggerRedirect] is not called,
    however many such ticks there are.  A tick whose read gives an
    address calls [triggerRedirect('urlMonitoring')] and clears the
    interval exactly when the address differs from the last one seen and
    [isSuccessUrl] accepts it; a cleared interval stays cleared and its
    ticks do nothing. *)
Theorem C9_poller_swallows_and_stops (p : Page) (lastUrl : str) :
  urlChecker p = Some (true, lastUrl) ->
  (forall n, run c (repeat (EvUrlTick None) n) p = p) /\
  forall currentUrl,
    let q := urlTick c (Some currentUrl) p in
    let hit := negb (eqb currentUrl lastUrl) && isSuccessUrl (Some currentUrl) in
    dispatched q = dispatched p ++ (if hit then [urlMonitoring] else []) /\
    urlChecker q = Some (negb hit, currentUrl) /\
    (hit = true ->
     forall events href,
       urlChecker (run c events q) = Some (false, currentUrl) /\
       urlTick c href (run c events q) = run c events q).
Proof.
  intros Hrun. split; [intros n; apply ticks_throwing|].
  intros currentUrl q hit. subst q hit.
  rewrite (urlTick_running p lastUrl currentUrl Hrun).
  destruct (eqb currentUrl lastUrl) eqn:E.
  - apply eqb_eq in E. subst currentUrl. cbn [negb andb].
    split; [symmetry; apply app_nil_r|]. split; [exact Hrun|].
    intros F. discriminate F.
  - cbn [negb andb]. cbv zeta.
    destruct (isSuccessUrl (Some currentUrl)) eqn:S.
    + match goal with
      | |- context [triggerRedirect c urlMonitoring ?r] =>
          destruct (triggerRedirect_detectors urlMonitoring r) as (D & _ & U & _);
          set (t := triggerRedirect c urlMonitoring r) in *
      end.
      project.
      split; [exact D|]. split; [exact U|].
      intros _ events href.
      pose proof (run_stopped currentUrl events t U) as R.
      split; [exact R | apply (urlTick_stopped href currentUrl), R].
    + project.
      split; [symmetry; apply app_nil_r|]. split; [reflexivity|].
      intros F. discriminate F.
Qed.

(** The 'message' listener on an origin without the trusted substring. *)
Lemma onMessage_untrusted (origin : str) (data : JsValue) (p : Page) :
  includes origin (lit "appointmentcore.com") = false ->
  onMessage c origin data p = p.
Proof.
  intros H. unfold onMessage. rewrite H.
  destruct (negb (messageListener p)); reflexivity.
Qed.

(** C7.  A message whose origin does not contain 'appointmentcore.com'
    leaves the whole page as it was, whatever its payload:
    [triggerRedirect] is not called, the attempt counter and the pending
    timeouts are untouched and nothing is printed; two such messages
    that differ only in their payload have the same outcome. *)
Theorem C7_untrusted_origin_is_ignored
    (origin : str) (data data' : JsValue) (p : Page) :
  includes origin (lit "appointmentcore.com") = false ->
  step c p (EvMessage origin data) = p /\
  dispatched (step c p (EvMessage origin data)) = dispatched p /\
  redirectAttempts (step c p (EvMessage origin data)) = redirectAttempts p /\
  timers (step c p (EvMessage origin data)) = timers p /\
  step c p (EvMessage origin data) = step c p (EvMessage origin data').
Proof.
  intros H. cbn [step]. rewrite !(onMessage_untrusted origin _ p H).
  repeat split; reflexivity.
Qed.

(** *** The mutation observer *)

Lemma onAddedNode_dispatched (n : Node) (p : Page) :
  dispatched (onAddedNode c p n) =
  dispatched p ++ (if matching n then [mutationObserver] else []).
Proof.
  unfold onAddedNode, matching.
  destruct (nodeType n =? 1); [|cbn [andb]; rewrite app_nil_r; reflexivity].
  cbn [andb]. destruct (containsSuccessIndicator _);
    [|rewrite app_nil_r; reflexivity].
  cbv zeta.
  match goal with
  | |- context [triggerRedirect c mutationObserver ?r] =>
      destruct (triggerRedirect_detectors mutationObserver r) as (D & _)
  end.
  rewrite D. reflexivity.
Qed.

Lemma addedNodes_dispatched (l : list Node) (p : Page) :
  dispatched (fold_left (onAddedNode c) l p) =
  dispatched p ++ repeat mutationObserver (List.length (filter matching l)).
Proof.
  revert p. induction l as [|n l IH]; intros p.
  - simpl. rewrite app_nil_r. reflexivity.
  - cbn [fold_left filter]. rewrite IH, onAddedNode_dispatched.
    destruct (matching n); rewrite <- app_assoc; reflexivity.
Qed.

(** The callback of a connected observer calls [triggerRedirect] once
    for every matching node of the batch: it walks the whole batch with
    [forEach], also after it has disconnected the observer. *)
Lemma onMutations_dispatched (mutations : list MutationRecord) (p : Page) :
  observer p = Some true ->
  dispatched (onMutations c mutations p) =
  dispatched p ++ repeat mutationObserver (matches mutations).
Proof.
  intros H. unfold onMutations. rewrite H. clear H. unfold matches.
  revert p. induction mutations as [|r l IH]; intros p.
  - simpl. rewrite app_nil_r. reflexivity.
  - cbn [fold_left flat_map]. rewrite IH, addedNodes_dispatched.
    rewrite filter_app, length_app, repeat_app, <- app_assoc. reflexivity.
Qed.

(** A disconnected observer is delivered nothing. *)
Lemma onMutations_disconnected (mutations : list MutationRecord) (p : Page) :
  observer p = Some false -> onMutations c mutations p = p.
Proof. intros H. unfold onMutations. rewrite H. reflexivity. Qed.

End Detectors.

(** C8.  The code at a batch whose single record adds two matching
    element nodes: the observer callback calls
    [triggerRedirect('mutationObserver')] twice, not once; both calls
    are accepted and set a timeout each.  The observer is disconnected
    by the first match, so a later batch is delivered nothing. *)
Theorem C8_two_matches_in_one_batch_report_twice :
  let q := onMutations CONFIG twoMatches startPage in
  observer startPage = Some true /\
  matches twoMatches = 2 /\
  dispatched q = [mutationObserver; mutationObserver] /\
  redirectAttempts q = 2 /\
  List.length (timers q) = 2 /\
  observer q = Some false /\
  onMutations CONFIG twoMatches q = q.
Proof. vm_compute. repeat split. Qed.

(** C7 at scenario 3 of the specification. *)
Lemma C7_witness_evil_origin :
  step CONFIG startPage
    (EvMessage (lit "https://evil.example") (JObj [(lit "success", JBool true)])) =
  startPage.
Proof.
  destruct (C7_untrusted_origin_is_ignored CONFIG (lit "https://evil.example")
              (JObj [(lit "success", JBool true)]) JNull startPage) as (A & _).
  - vm_compute. reflexivity.
  - exact A.
Defined.

(** C9 at the first tick that reads a success address. *)
Lemma C9_witness_success_address :
  urlChecker (urlTick CONFIG (Some (lit "https://go.appointmentcore.com/book/success")) startPage) =
  Some (false, lit "https://go.appointmentcore.com/book/success").
Proof.
  destruct (C9_poller_swallows_and_stops CONFIG startPage []) as (_ & B).
  - vm_compute. reflexivity.
  - destruct (B (lit "https://go.appointmentcore.com/book/success")) as (_ & U & _).
    exact U.
Defined.

(** C3 at a history of four reports on the configuration of the source. *)
Lemma C3_witness_four_reports :
  redirectAttempts
    (run CONFIG [EvManual; EvCustom (lit "bookingComplete") JNull; EvManual; EvManual]
       startPage) <= maxRedirectAttempts CONFIG.
Proof.
  destruct (C3_attempt_ceiling_invariant CONFIG startPage
              [EvManual; EvCustom (lit "bookingComplete") JNull; EvManual; EvManual])
    as (A & _).
  - vm_compute. repeat split.
  - exact A.
Defined.

(** ** Initialisation *)

(** Set up on its own, without an iframe, the navigation watcher raises;
    [init] never reaches it then. *)
Remark setupNavigationWatcher_without_iframe (p : Page) :
  iframe p = false -> setupNavigationWatcher p = Thrown (JStr (lit "TypeError")) p.
Proof. intros H. unfold setupNavigationWatcher. rewrite H. reflexivity. Qed.

(** C4 as stated fails: on a document without the booking iframe [init]
    prints the error and returns before any detector is set up, so the
    message listener, the mutation observer and the custom event
    listeners are not started either. *)
Lemma C4_counterexample_no_detector_started :
  exists q,
    init noIframe (freshPage Absent Absent Absent) = Returned q /\
    messageListener q = false /\ observer q = None /\ customListeners q = [] /\
    urlChecker q = None /\ loadListener q = false.
Proof. eexists. vm_compute. repeat split. Qed.

Lemma setupPostMessageListener_effect (p : Page) :
  setupEffect setupPostMessageListener p
    true (urlChecker p) (observer p) (loadListener p) (customListeners p).
Proof. eexists. split; [reflexivity|]. repeat split. Qed.

Lemma setupUrlMonitoring_effect (p : Page) :
  setupEffect setupUrlMonitoring p
    (messageListener p) (Some (true, [])) (observer p) (loadListener p)
    (customListeners p).
Proof. eexists. split; [reflexivity|]. repeat split. Qed.

Lemma setupMutationObserver_effect (p : Page) :
  setupEffect setupMutationObserver p
    (messageListener p) (urlChecker p) (Some true) (loadListener p)
    (customListeners p).
Proof. eexists. split; [reflexivity|]. repeat split. Qed.

Lemma setupNavigationWatcher_effect (p : Page) :
  iframe p = true ->
  setupEffect setupNavigationWatcher p
    (messageListener p) (urlChecker p) (observer p) true (customListeners p).
Proof.
  intros H. unfold setupEffect, setupNavigationWatcher. rewrite H.
  eexists. split; [reflexivity|]. repeat split. exact H.
Qed.

Lemma setupCustomEventListener_effect (p : Page) :
  setupEffect setupCustomEventListener p
    (messageListener p) (urlChecker p) (observer p) (loadListener p)
    (customListeners p ++ eventNames).
Proof. eexists. split; [reflexivity|]. repeat split. Qed.

(** C4, amended.  [init] never raises.  Without the booking iframe it
    prints 'Booking iframe not found' as an error and starts no detector
    at all; with the iframe it starts all five, whether or not the
    overlay element exists. *)
Theorem C4_init_returns_and_guards_on_iframe (d : Document) (p : Page) :
  exists q,
    init d p = Returned q /\
    iframe q = bookingIframe d /\
    loadingOverlay q = overlayElement d /\
    if bookingIframe d then
      messageListener q = true /\ urlChecker q = Some (true, []) /\
      observer q = Some true /\ loadListener q = true /\
      customListeners q = customListeners p ++ eventNames
    else
      q = error "Booking iframe not found"
            (Upd.elements false (overlayElement d) p) /\
      messageListener q = messageListener p /\ urlChecker q = urlChecker p /\
      observer q = observer p /\ loadListener q = loadListener p /\
      customListeners q = customListeners p.
Proof.
  destruct d as [[|] o]; unfold init; cbn [bookingIframe overlayElement].
  - set (p0 := log "Redirect handler initialized" [] (Upd.elements true o p)).
    change (if negb (iframe (Upd.elements true o p)) then _ else ?r) with r.
    cbn [andThen].
    destruct (setupPostMessageListener_effect p0)
      as (p1 & E1 & I1 & O1 & M1 & U1 & B1 & L1 & C1).
    rewrite E1. cbn [andThen].
    destruct (setupUrlMonitoring_effect p1)
      as (p2 & E2 & I2 & O2 & M2 & U2 & B2 & L2 & C2).
    rewrite E2. cbn [andThen].
    destruct (setupMutationObserver_effect p2)
      as (p3 & E3 & I3 & O3 & M3 & U3 & B3 & L3 & C3).
    rewrite E3. cbn [andThen].
    assert (H3 : iframe p3 = true) by (rewrite I3, I2, I1; reflexivity).
    destruct (setupNavigationWatcher_effect p3 H3)
      as (p4 & E4 & I4 & O4 & M4 & U4 & B4 & L4 & C4).
    rewrite E4. cbn [andThen].
    destruct (setupCustomEventListener_effect p4)
      as (p5 & E5 & I5 & O5 & M5 & U5 & B5 & L5 & C5).
    exists p5. split; [exact E5|].
    rewrite I5, O5, M5, U5, B5, L5, C5, I4, O4, M4, U4, B4, C4,
      I3, O3, M3, U3, C3, I2, O2, M2, C2, I1, O1, M1, C1.
    repeat split; assumption.
  - eexists. split; [reflexivity|]. repeat split.
Qed.

(** * Further properties of the code *)

(** ** The classifier *)

(** X9.  A string payload whose text classifies positive is itself
    classified positive by [isSuccessMessage]: quoting and escaping the
    string for the JSON text never breaks up a token. *)
Theorem X9_string_payload_with_token (s : str) :
  containsSuccessIndicator (Some s) = true ->
  isSuccessMessage (JStr s) = Some true.
Proof.
  intros H. destruct s as [|x s]; [discriminate H|].
  rewrite containsSuccessIndicator_some in H.
  apply someIndicator_spec in H. destruct H as [t [Ht Ho]].
  unfold isSuccessMessage. cbn [truthy negb typeof_object andb Json.stringify].
  f_equal. apply someIndicator_spec. exists t. split; [exact Ht|].
  apply occurs_lower_quote; assumption.
Qed.

(** X9 at a message that only says the booking is confirmed. *)
Lemma X9_witness_confirmed_text :
  isSuccessMessage (JStr (lit "Booking CONFIRMED")) = Some true.
Proof.
  apply (X9_string_payload_with_token (lit "Booking CONFIRMED")).
  vm_compute. reflexivity.
Defined.

Lemma confirm_in_appointment_confirmed (s : str) :
  includes s (lit "appointment-confirmed") = true ->
  includes s (lit "confirm") = true.
Proof.
  intros H. apply includes_spec. apply includes_spec in H.
  apply (occurs_trans _ (lit "appointment-confirmed")); [|exact H].
  apply includes_spec. vm_compute. reflexivity.
Qed.

Lemma someIndicator_core (s : str) :
  someIndicator s = existsb (fun i => includes s i) coreIndicators.
Proof.
  unfold someIndicator.
  change SUCCESS_INDICATORS with (coreIndicators ++ [lit "appointment-confirmed"]).
  rewrite existsb_app. cbn [existsb]. rewrite orb_false_r.
  destruct (includes s (lit "appointment-confirmed")) eqn:E.
  - rewrite orb_true_r. symmetry. apply existsb_exists.
    exists (lit "confirm"). split.
    + right. right. left. reflexivity.
    + apply confirm_in_appointment_confirmed, E.
  - apply orb_false_r.
Qed.

(** X10.  The token 'appointment-confirmed' of [SUCCESS_INDICATORS] never
    decides a classification: every text and address that contains it
    contains 'confirm', so [containsSuccessIndicator] and [isSuccessUrl]
    answer on every input as they would with the six other tokens
    alone. *)
Theorem X10_last_indicator_is_redundant (input : option str) :
  let core := fun s => existsb (fun i => includes (toLowerCase s) i) coreIndicators in
  containsSuccessIndicator input =
    match input with None => false | Some s => core s end /\
  isSuccessUrl input =
    match input with None => false | Some s => core s end.
Proof.
  destruct input as [s|]; [|split; reflexivity].
  cbv zeta. rewrite containsSuccessIndicator_some, isSuccessUrl_some.
  rewrite someIndicator_core. split; reflexivity.
Qed.

(** X11.  Classification is not lost by surrounding text: an address or
    text that classifies positive still does with anything put before
    and after it, a path prefix or a query string for instance. *)
Theorem X11_positive_survives_context (pre s post : str) :
  isSuccessUrl (Some s) = true ->
  isSuccessUrl (Some (pre ++ s ++ post)) = true /\
  containsSuccessIndicator (Some (pre ++ s ++ post)) = true.
Proof.
  intros H. rewrite isSuccessUrl_some in H.
  rewrite containsSuccessIndicator_some, isSuccessUrl_some.
  assert (G : someIndicator (toLowerCase (pre ++ s ++ post)) = true).
  { apply someIndicator_spec in H. destruct H as [t [Ht Ho]].
    apply someIndicator_spec. exists t. split; [exact Ht|].
    rewrite !toLowerCase_app. apply occurs_app_r, occurs_app_l, Ho. }
  split; exact G.
Qed.

(** X11 at a success address with a host before and a query after. *)
Lemma X11_witness_query_string :
  isSuccessUrl (Some (lit "https://go.example/" ++ lit "booked" ++ lit "?id=7")) = true.
Proof.
  destruct (X11_positive_survives_context (lit "https://go.example/")
              (lit "booked") (lit "?id=7")) as (A & _).
  - vm_compute. reflexivity.
  - exact A.
Defined.

(** ** Analytics *)

(** X1.  [trackRedirect] calls the analytics globals that are defined,
    in the order gtag, ga, fbq, and stops at the first that raises: the
    globals after it are not called.  It prints one line, 'Analytics
    tracked:' when none raised and 'Analytics tracking failed:' with the
    exception otherwise, and returns in either case. *)
Theorem X1_trackRedirect_calls_until_first_failure
    (c : Settings) (m : Method) (p : Page) :
  let l := [ (gtag p, Gtag m (redirectUrl c)); (ga p, Ga m); (fbq p, Fbq m) ] in
  analytics (trackRedirect c m p) = analytics p ++ attempted l /\
  console (trackRedirect c m p) =
    console p ++
    [ match raised l with
      | None => {| level := LLog; text := lit "Analytics tracked:";
                   args := [JStr (methodName m)] |}
      | Some e => {| level := LLog; text := lit "Analytics tracking failed:";
                     args := [e] |}
      end ].
Proof.
  destruct p as [i o n g1 g2 g3 an co cl ti na di ml uc ob ll cu].
  unfold trackRedirect. project.
  destruct g1, g2, g3; project; cbn [attempted raised];
    rewrite <- ?app_assoc, ?app_nil_r; split; reflexivity.
Qed.

(** ** Properties kept by every event, from the primitive updates *)

Section KeptPrimitive.

Variable c : Settings.
Variable P : Page -> Prop.

Hypothesis keeps_trigger : forall m p, P p -> P (triggerRedirect c m p).
Hypothesis keeps_print : forall l p, P p -> P (Upd.printed l p).
Hypothesis keeps_detectors :
  forall ml uc ob ll cl p, P p -> P (Upd.detectors ml uc ob ll cl p).
Hypothesis keeps_elapse : forall dt p, P p -> P (elapse c dt p).

Lemma keeps_urlTick (href : option str) (p : Page) : P p -> P (urlTick c href p).
Proof.
  intros H. unfold urlTick.
  destruct (urlChecker p) as [[[|] lastUrl]|]; try exact H.
  destruct href as [currentUrl|]; [|exact H].
  destruct (eqb currentUrl lastUrl); [exact H|]. cbv zeta.
  destruct (isSuccessUrl (Some currentUrl)).
  - apply keeps_trigger, keeps_detectors, keeps_print, keeps_print,
      keeps_detectors, H.
  - apply keeps_print, keeps_detectors, H.
Qed.

Lemma keeps_run (events : list Event) (p : Page) : P p -> P (run c events p).
Proof.
  apply (kept_run c P).
  - exact keeps_trigger.
  - exact keeps_print.
  - intros q H. apply keeps_detectors, H.
  - exact keeps_urlTick.
  - exact keeps_elapse.
Qed.

End KeptPrimitive.

(** ** The dispatcher under every event *)

Section Everywhere.

Variable c : Settings.

(** X12.  Whatever the detectors report and whenever time passes, from
    a pristine dispatcher every accepted call has its timeout pending or
    its navigation done, so the navigations ever done are at most
    [maxRedirectAttempts], and each of them goes to [redirectUrl]. *)
Theorem X12_navigations_bounded_under_all_events (events : list Event) (p : Page) :
  pristine p ->
  let q := run c events p in
  List.length (navigations q) + List.length (timers q) = redirectAttempts q /\
  List.length (navigations q) <= maxRedirectAttempts c /\
  navigations q = repeat (redirectUrl c) (List.length (navigations q)).
Proof.
  intros Hp q.
  assert (H : scheduled c q /\ counted c q).
  { apply (keeps_run c (fun r => scheduled c r /\ counted c r)).
    - intros m r [S K]. split;
        [apply triggerRedirect_scheduled | apply triggerRedirect_counted]; assumption.
    - intros l r [S K]. split; [exact S | exact K].
    - intros ml uc ob ll cl r [S K]. split; [exact S | exact K].
    - intros dt r [S K]. split;
        [apply elapse_scheduled | apply elapse_counted]; assumption.
    - split; [apply pristine_scheduled | apply pristine_counted]; exact Hp. }
  destruct H as [(L & _ & N) K]. unfold counted in K.
  split; [exact L|]. split; [lia | exact N].
Qed.

(** X13.  Once the attempt counter has reached the ceiling nothing that
    happens later is acted on: under every further history of events the
    counter, the analytics calls and the overlay stay as they are, and no
    timeout is added, the pending ones only turn into navigations. *)
Theorem X13_nothing_acted_on_after_ceiling (events : list Event) (p : Page) :
  maxRedirectAttempts c <= redirectAttempts p ->
  let q := run c events p in
  redirectAttempts q = redirectAttempts p /\
  analytics q = analytics p /\
  loadingOverlay q = loadingOverlay p /\
  List.length (navigations q) + List.length (timers q) =
  List.length (navigations p) + List.length (timers p).
Proof.
  intros Hge q.
  apply (keeps_run c (fun r =>
           redirectAttempts r = redirectAttempts p /\
           analytics r = analytics p /\
           loadingOverlay r = loadingOverlay p /\
           List.length (navigations r) + List.length (timers r) =
           List.length (navigations p) + List.length (timers p))).
  - intros m r (A & B & O & L).
    assert (Hr : maxRedirectAttempts c <= redirectAttempts r) by lia.
    destruct (triggerRedirect_rejected_frame c m r Hr) as (A' & B' & O' & T' & N' & _).
    rewrite A', B', O', T', N'. repeat split; assumption.
  - intros l r H. exact H.
  - intros ml uc ob ll cl r H. exact H.
  - intros dt r (A & B & O & L). rewrite elapse_eq. project.
    repeat split; try assumption.
    rewrite length_app, repeat_length.
    pose proof (filter_split_length (fun t => t <=? clock r + dt) (timers r)). lia.
  - repeat split.
Qed.


End Everywhere.

(** X12 at a history in which four detectors report. *)
Lemma X12_witness_four_detectors :
  List.length
    (navigations
       (run CONFIG
          [ EvManual; EvCustom (lit "formSubmitted") JNull;
            EvLoad (Some (lit "https://x/thanks")); EvManual; EvElapse 2000 ]
          startPage)) <= maxRedirectAttempts CONFIG.
Proof.
  destruct (X12_navigations_bounded_under_all_events CONFIG
              [ EvManual; EvCustom (lit "formSubmitted") JNull;
                EvLoad (Some (lit "https://x/thanks")); EvManual; EvElapse 2000 ]
              startPage) as (_ & B & _).
  - vm_compute. repeat split.
  - exact B.
Defined.

(** X13 at the page on which three calls have been made. *)
Lemma X13_witness_after_three_calls :
  analytics
    (run CONFIG [EvManual; EvCustom (lit "bookingSuccess") JNull]
       (perform CONFIG [Call manual; Call manual; Call manual] startPage)) =
  analytics (perform CONFIG [Call manual; Call manual; Call manual] startPage).
Proof.
  destruct (X13_nothing_acted_on_after_ceiling CONFIG
              [EvManual; EvCustom (lit "bookingSuccess") JNull]
              (perform CONFIG [Call manual; Call manual; Call manual] startPage))
    as (_ & B & _).
  - vm_compute. lia.
  - exact B.
Defined.

(** ** The detectors, further *)

Section DetectorsFurther.

Variable c : Settings.

Lemma log_then_trigger_dispatched (t : string) (a : list JsValue) (m : Method) (p : Page) :
  dispatched (triggerRedirect c m (log t a p)) = dispatched p ++ [m].
Proof.
  destruct (triggerRedirect_detectors c m (log t a p)) as (D & _).
  rewrite D. reflexivity.
Qed.


Lemma onLoad_effect (href : option str) (p : Page) :
  loadListener p = true ->
  dispatched (onLoad c href p) =
    dispatched p ++ (if isSuccessUrl href then [navigationWatcher] else []) /\
  loadListener (onLoad c href p) = true.
Proof.
  intros Hl. unfold onLoad. rewrite Hl. cbn [negb].
  destruct href as [url|].
  - destruct (isSuccessUrl (Some url)).
    + destruct (triggerRedirect_detectors c navigationWatcher
                  (log "Success detected via navigation watcher" []
                     (log "Iframe loaded/reloaded" [] p)))
        as (D & _ & _ & _ & L & _).
      rewrite D, L. split; [reflexivity | exact Hl].
    + split; [symmetry; apply app_nil_r | exact Hl].
  - split; [symmetry; apply app_nil_r | exact Hl].
Qed.

(** X3.  The navigation watcher never stops itself and keeps no last
    address: over any sequence of iframe loads it calls
    [triggerRedirect('navigationWatcher')] once for every load whose
    address can be read and classifies positive, a reload of the same
    success address included, and does nothing but print on a load whose
    read raises. *)
Theorem X3_every_success_load_reports (hrefs : list (option str)) (p : Page) :
  loadListener p = true ->
  let q := run c (map EvLoad hrefs) p in
  dispatched q = dispatched p ++ repeat navigationWatcher (successLoads hrefs) /\
  loadListener q = true.
Proof.
  unfold successLoads, run. revert p.
  induction hrefs as [|href l IH]; intros p Hl.
  - cbn. rewrite app_nil_r. split; [reflexivity | exact Hl].
  - cbn [map fold_left step filter].
    destruct (onLoad_effect href p Hl) as (D & L).
    destruct (IH (onLoad c href p) L) as (D' & L').
    cbv zeta in D'. rewrite D', D. split; [|exact L'].
    destruct (isSuccessUrl href); rewrite <- app_assoc; reflexivity.
Qed.

(** X8.  Polling the same address twice in a row is the same as polling
    it once: the first tick records the address (or stops the interval),
    so the second finds nothing new. *)
Theorem X8_poll_same_address_twice (href : option str) (p : Page) :
  urlTick c href (urlTick c href p) = urlTick c href p.
Proof.
  destruct href as [u|]; [|rewrite !urlTick_throws; reflexivity].
  destruct (urlChecker p) as [[[|] lastUrl]|] eqn:E.
  - rewrite (urlTick_running c p lastUrl u E).
    destruct (eqb u lastUrl) eqn:Eu.
    + rewrite (urlTick_running c p lastUrl u E), Eu. reflexivity.
    + cbv zeta. destruct (isSuccessUrl (Some u)).
      * apply (urlTick_stopped c (Some u) u).
        match goal with
        | |- context [triggerRedirect c urlMonitoring ?r] =>
            destruct (triggerRedirect_detectors c urlMonitoring r) as (_ & _ & U & _)
        end.
        rewrite U. reflexivity.
      * match goal with
        | |- urlTick c (Some u) ?r = _ =>
            rewrite (urlTick_running c r u u eq_refl)
        end.
        rewrite eqb_refl. reflexivity.
  - assert (H : urlTick c (Some u) p = p) by (apply (urlTick_stopped c (Some u) lastUrl), E).
    rewrite !H. reflexivity.
  - assert (H : urlTick c (Some u) p = p) by (unfold urlTick; rewrite E; reflexivity).
    rewrite !H. reflexivity.
Qed.

(** X15.  The message [simulatePostMessage()] posts is acted on by the
    handler only on a page whose own origin contains
    'appointmentcore.com': there it is taken through the
    [success === true] shortcut and reported as 'postMessage'; on any
    other host page the simulation leaves the handler untouched. *)
Theorem X15_simulated_message_needs_trusted_page (pageOrigin : str) (p : Page) :
  messageListener p = true ->
  let q := step c p (simulatedMessage pageOrigin) in
  dispatched q =
    dispatched p ++
    (if includes pageOrigin (lit "appointmentcore.com") then [postMessage] else []) /\
  (includes pageOrigin (lit "appointmentcore.com") = false -> q = p).
Proof.
  intros Hl q. subst q. unfold simulatedMessage. cbn [step].
  unfold onMessage. rewrite Hl. cbn [negb].
  destruct (includes pageOrigin (lit "appointmentcore.com")); cbn [negb].
  - replace (isSuccessMessage simulatedData) with (Some true)
      by (vm_compute; reflexivity).
    split; [|discriminate].
    destruct (triggerRedirect_detectors c postMessage
                (log "Success detected via postMessage" []
                   (log "PostMessage received:" [simulatedData] p))) as (D & _).
    rewrite D. reflexivity.
  - split; [symmetry; apply app_nil_r | reflexivity].
Qed.

End DetectorsFurther.


(** X3 at two loads of the same success address around a blocked read. *)
Lemma X3_witness_reload :
  dispatched
    (run CONFIG
       (map EvLoad [Some (lit "https://x/thanks"); None; Some (lit "https://x/thanks")])
       startPage) = [navigationWatcher; navigationWatcher].
Proof.
  destruct (X3_every_success_load_reports CONFIG
              [Some (lit "https://x/thanks"); None; Some (lit "https://x/thanks")]
              startPage) as (A & _).
  - vm_compute. reflexivity.
  - exact A.
Defined.

(** X15 on the host page of the source, whose origin is not trusted. *)
Lemma X15_witness_host_page :
  step CONFIG startPage (simulatedMessage (lit "https://studentmarketing.agency")) =
  startPage.
Proof.
  destruct (X15_simulated_message_needs_trusted_page CONFIG
              (lit "https://studentmarketing.agency") startPage) as (_ & B).
  - vm_compute. reflexivity.
  - apply B. vm_compute. reflexivity.
Defined.

(** ** Initialisation, further *)

Lemma andThen_returned (r : Result) (k : Page -> Result) (q : Page) :
  andThen r k = Returned q -> exists p, r = Returned p /\ k p = Returned q.
Proof.
  destruct r as [p|e p]; cbn [andThen]; intros H; [|discriminate H].
  exists p. split; [reflexivity | exact H].
Qed.

Lemma setupPostMessageListener_dispatcher (p q : Page) :
  setupPostMessageListener p = Returned q -> dispatcherOf q = dispatcherOf p.
Proof. intros H. injection H as <-. reflexivity. Qed.

Lemma setupUrlMonitoring_dispatcher (p q : Page) :
  setupUrlMonitoring p = Returned q -> dispatcherOf q = dispatcherOf p.
Proof. intros H. injection H as <-. reflexivity. Qed.

Lemma setupMutationObserver_dispatcher (p q : Page) :
  setupMutationObserver p = Returned q -> dispatcherOf q = dispatcherOf p.
Proof. intros H. injection H as <-. reflexivity. Qed.

Lemma setupNavigationWatcher_dispatcher (p q : Page) :
  setupNavigationWatcher p = Returned q -> dispatcherOf q = dispatcherOf p.
Proof.
  unfold setupNavigationWatcher. destruct (iframe p); intros H; [|discriminate H].
  injection H as <-. reflexivity.
Qed.

Lemma setupCustomEventListener_dispatcher (p q : Page) :
  setupCustomEventListener p = Returned q -> dispatcherOf q = dispatcherOf p.
Proof. intros H. injection H as <-. reflexivity. Qed.

(** [init] leaves the dispatcher as it finds it. *)
Lemma init_dispatcher (d : Document) (p q : Page) :
  init d p = Returned q -> dispatcherOf q = dispatcherOf p.
Proof.
  unfold init. cbv zeta.
  destruct (negb (iframe (Upd.elements (bookingIframe d) (overlayElement d) p))).
  - intros H. injection H as <-. reflexivity.
  - intros H.
    apply andThen_returned in H. destruct H as (p4 & H & E5).
    apply andThen_returned in H. destruct H as (p3 & H & E4).
    apply andThen_returned in H. destruct H as (p2 & H & E3).
    apply andThen_returned in H. destruct H as (p1 & H & E2).
    apply andThen_returned in H. destruct H as (p0 & H & E1).
    injection H as <-.
    rewrite (setupCustomEventListener_dispatcher _ _ E5),
      (setupNavigationWatcher_dispatcher _ _ E4),
      (setupMutationObserver_dispatcher _ _ E3),
      (setupUrlMonitoring_dispatcher _ _ E2),
      (setupPostMessageListener_dispatcher _ _ E1).
    reflexivity.
Qed.

(** The custom event listeners after [init]. *)
Lemma init_customListeners (d : Document) (p : Page) :
  exists q,
    init d p = Returned q /\
    customListeners q =
      if bookingIframe d then customListeners p ++ eventNames
      else customListeners p.
Proof.
  destruct d as [[|] o]; unfold init; cbn [bookingIframe overlayElement].
  - set (p0 := log "Redirect handler initialized" [] (Upd.elements true o p)).
    change (if negb (iframe (Upd.elements true o p)) then _ else ?r) with r.
    cbn [andThen].
    destruct (setupPostMessageListener_effect p0)
      as (p1 & E1 & I1 & _ & _ & _ & _ & _ & C1).
    rewrite E1. cbn [andThen].
    destruct (setupUrlMonitoring_effect p1)
      as (p2 & E2 & I2 & _ & _ & _ & _ & _ & C2).
    rewrite E2. cbn [andThen].
    destruct (setupMutationObserver_effect p2)
      as (p3 & E3 & I3 & _ & _ & _ & _ & _ & C3).
    rewrite E3. cbn [andThen].
    assert (H3 : iframe p3 = true) by (rewrite I3, I2, I1; reflexivity).
    destruct (setupNavigationWatcher_effect p3 H3)
      as (p4 & E4 & _ & _ & _ & _ & _ & _ & C4).
    rewrite E4. cbn [andThen].
    destruct (setupCustomEventListener_effect p4)
      as (p5 & E5 & _ & _ & _ & _ & _ & _ & C5).
    exists p5. split; [exact E5|].
    rewrite C5, C4, C3, C2, C1. reflexivity.
  - eexists. split; reflexivity.
Qed.

Section AfterInit.

Variable c : Settings.

(** X4.  After [init] on a page with no listener yet, a window event
    calls [triggerRedirect('customEvent')] exactly when the booking
    iframe was found and the event carries one of the five names of
    [setupCustomEventListener], compared as written; its detail is not
    looked at.  Without the iframe no name is listened for. *)
Theorem X4_custom_events_after_init
    (d : Document) (p : Page) (eventName : str) (detail : JsValue) :
  customListeners p = [] ->
  exists q,
    init d p = Returned q /\
    dispatched (onCustomEvent c eventName detail q) =
      dispatched q ++
      (if bookingIframe d && existsb (eqb eventName) eventNames
       then [customEvent] else []).
Proof.
  intros Hp. destruct (init_customListeners d p) as (q & E & L).
  exists q. split; [exact E|]. unfold onCustomEvent. rewrite L, Hp.
  destruct (bookingIframe d); cbn [andb app existsb].
  - destruct (existsb (eqb eventName) eventNames).
    + destruct (triggerRedirect_detectors c customEvent
                  (log "Custom event detected:" [JStr eventName; detail] q))
        as (D & _).
      rewrite D. reflexivity.
    + symmetry. apply app_nil_r.
  - symmetry. apply app_nil_r.
Qed.

(** X5.  The manual trigger does not depend on [init]: on a pristine
    page, whatever [init] found in the document, with or without the
    booking iframe, [window.triggerManualRedirect()] followed by the
    delay navigates once to [redirectUrl]. *)
Theorem X5_manual_trigger_works_after_any_init (d : Document) (p q : Page) :
  pristine p ->
  1 <= maxRedirectAttempts c ->
  init d p = Returned q ->
  let r := run c [EvManual; EvElapse (redirectDelay c)] q in
  navigations r = [redirectUrl c] /\ timers r = [] /\ redirectAttempts r = 1.
Proof.
  intros (A & D & T & N) Hmax Hinit r. subst r.
  apply init_dispatcher in Hinit. unfold dispatcherOf in Hinit.
  injection Hinit as A' T' N' D' K'.
  rewrite A in A'. rewrite T in T'. rewrite N in N'.
  unfold run. cbn [fold_left step]. unfold triggerManualRedirect.
  set (q1 := log "Manual redirect triggered" [] q).
  assert (Hlt : redirectAttempts q1 < maxRedirectAttempts c)
    by (subst q1; project; lia).
  destruct (triggerRedirect_accepted c manual q1 Hlt) as (A1 & T1 & C1 & N1 & _).
  set (t := triggerRedirect c manual q1) in *.
  rewrite elapse_eq. project. rewrite A1, T1, C1, N1.
  subst q1. project. rewrite A', T', N'.
  cbn [app filter]. rewrite Nat.leb_refl. cbn [negb List.length repeat].
  repeat split.
Qed.

End AfterInit.

(** X4 at the event [simulateCustomEvent()] of [testing-tools.js]
    dispatches. *)
Lemma X4_witness_appointment_booked :
  exists q,
    init {| bookingIframe := true; overlayElement := None |}
         (freshPage Absent Absent Absent) = Returned q /\
    dispatched (onCustomEvent CONFIG (lit "appointmentBooked") JNull q) =
      dispatched q ++ [customEvent].
Proof.
  destruct (X4_custom_events_after_init CONFIG
              {| bookingIframe := true; overlayElement := None |}
              (freshPage Absent Absent Absent) (lit "appointmentBooked") JNull)
    as (q & E & D).
  - reflexivity.
  - exists q. split; [exact E | exact D].
Defined.

(** X5 after an [init] that found no iframe. *)
Lemma X5_witness_without_iframe :
  navigations
    (run CONFIG [EvManual; EvElapse (redirectDelay CONFIG)]
       (error "Booking iframe not found"
          (Upd.elements false (Some false) (freshPage Absent Absent Absent)))) =
  [redirectUrl CONFIG].
Proof.
  destruct (X5_manual_trigger_works_after_any_init CONFIG noIframe
              (freshPage Absent Absent Absent)
              (error "Booking iframe not found"
                 (Upd.elements false (Some false) (freshPage Absent Absent Absent))))
    as (A & _).
  - repeat split.
  - vm_compute. lia.
  - reflexivity.
  - exact A.
Defined.

(** ** The mutation observer, further *)

Section ObserverFurther.

Variable c : Settings.

Lemma onAddedNode_observer (n : Node) (p : Page) :
  observer (onAddedNode c p n) = if matching n then Some false else observer p.
Proof.
  unfold onAddedNode, matching.
  destruct (nodeType n =? 1); [|reflexivity]. cbn [andb].
  destruct (containsSuccessIndicator _); [|reflexivity]. cbv zeta.
  match goal with
  | |- context [triggerRedirect c mutationObserver ?r] =>
      destruct (triggerRedirect_detectors c mutationObserver r) as (_ & _ & _ & O & _)
  end.
  rewrite O. reflexivity.
Qed.

Lemma onAddedNode_unmatched (n : Node) (p : Page) :
  matching n = false -> onAddedNode c p n = p.
Proof.
  unfold onAddedNode, matching. destruct (nodeType n =? 1); [|reflexivity].
  cbn [andb]. intros ->. reflexivity.
Qed.

Lemma addedNodes_observer (l : list Node) (p : Page) :
  observer (fold_left (onAddedNode c) l p) =
  if existsb matching l then Some false else observer p.
Proof.
  revert p. induction l as [|n l IH]; intros p; [reflexivity|].
  cbn [fold_left existsb]. rewrite IH, onAddedNode_observer.
  destruct (matching n), (existsb matching l); reflexivity.
Qed.

Lemma addedNodes_unmatched (l : list Node) (p : Page) :
  existsb matching l = false -> fold_left (onAddedNode c) l p = p.
Proof.
  revert p. induction l as [|n l IH]; intros p H; [reflexivity|].
  cbn [existsb] in H. apply orb_false_iff in H. destruct H as [Hn Hl].
  cbn [fold_left]. rewrite (onAddedNode_unmatched n p Hn). apply IH, Hl.
Qed.

Lemma filter_length_zero {A : Type} (f : A -> bool) (l : list A) :
  (List.length (filter f l) =? 0) = negb (existsb f l).
Proof.
  induction l as [|x l IH]; [reflexivity|].
  cbn [filter existsb]. destruct (f x); [reflexivity | exact IH].
Qed.

(** X7.  On a delivered batch a connected mutation observer calls
    [triggerRedirect('mutationObserver')] once for every added element
    node (node type 1) whose text classifies positive, in whatever
    record of the batch it stands; it ends up disconnected exactly when
    there was at least one, and a batch without any, made of text nodes
    or of elements without a token, changes nothing at all. *)
Theorem X7_observer_reports_each_matching_element
    (mutations : list MutationRecord) (p : Page) :
  observer p = Some true ->
  let q := onMutations c mutations p in
  dispatched q = dispatched p ++ repeat mutationObserver (matches mutations) /\
  observer q = Some (matches mutations =? 0) /\
  (matches mutations = 0 -> q = p).
Proof.
  intros Ho q. split; [apply onMutations_dispatched, Ho|].
  subst q. unfold onMutations, matches. rewrite Ho.
  rewrite filter_length_zero.
  assert (G : forall l r,
             observer (fold_left (fun s m => fold_left (onAddedNode c) (addedNodes m) s) l r) =
             (if existsb matching (flat_map addedNodes l) then Some false else observer r) /\
             (existsb matching (flat_map addedNodes l) = false ->
              fold_left (fun s m => fold_left (onAddedNode c) (addedNodes m) s) l r = r)).
  { induction l as [|m l IH]; intros r; [split; reflexivity|].
    cbn [fold_left flat_map]. rewrite existsb_app.
    destruct (IH (fold_left (onAddedNode c) (addedNodes m) r)) as (IO & IE).
    split.
    - rewrite IO, addedNodes_observer.
      destruct (existsb matching (addedNodes m)),
        (existsb matching (flat_map addedNodes l)); reflexivity.
    - intros H. apply orb_false_iff in H. destruct H as [Hm Hl].
      rewrite (IE Hl). apply addedNodes_unmatched, Hm. }
  destruct (G mutations p) as (GO & GE).
  split.
  - rewrite GO, Ho.
    destruct (existsb matching (flat_map addedNodes mutations)); reflexivity.
  - intros H. apply GE.
    destruct (existsb matching (flat_map addedNodes mutations)) eqn:E; [|reflexivity].
    apply existsb_exists in E. destruct E as [n [Hin Hn]].
    assert (Hf : In n (filter matching (flat_map addedNodes mutations)))
      by (apply filter_In; split; assumption).
    destruct (filter matching (flat_map addedNodes mutations)); [contradiction|].
    discriminate H.
Qed.

End ObserverFurther.

(** X7 at the batch of two matching elements. *)
Lemma X7_witness_two_matches :
  dispatched (onMutations CONFIG twoMatches startPage) =
  dispatched startPage ++ repeat mutationObserver (matches twoMatches).
Proof.
  destruct (X7_observer_reports_each_matching_element CONFIG twoMatches startPage)
    as (A & _).
  - vm_compute. reflexivity.
  - exact A.
Defined.

(** ** The console tools *)

(** X14.  [forceRedirect()] forces nothing while the handler is loaded:
    it goes through [triggerRedirect], so below the ceiling it only sets
    the usual timeout and at the ceiling it neither navigates nor sets
    one.  Only without the handler does it assign the address at once,
    uncounted, and the address it assigns is the [redirectUrl] of the
    handler's [CONFIG]. *)
Theorem X14_forceRedirect_obeys_the_ceiling (c : Settings) (p : Page) :
  (maxRedirectAttempts c <= redirectAttempts p ->
   navigations (forceRedirect c true p) = navigations p /\
   timers (forceRedirect c true p) = timers p) /\
  (redirectAttempts p < maxRedirectAttempts c ->
   navigations (forceRedirect c true p) = navigations p /\
   timers (forceRedirect c true p) = timers p ++ [clock p + redirectDelay c]) /\
  navigations (forceRedirect c false p) = navigations p ++ [redirectUrl CONFIG] /\
  timers (forceRedirect c false p) = timers p /\
  redirectAttempts (forceRedirect c false p) = redirectAttempts p.
Proof.
  unfold forceRedirect, triggerManualRedirect. cbv zeta. cbn [negb].
  set (q := log "Manual redirect triggered" [] (log "Forcing redirect..." [] p)).
  split; [|split].
  - intros Hge.
    destruct (triggerRedirect_rejected_frame c manual q Hge) as (_ & _ & _ & T & N & _).
    rewrite T, N. split; reflexivity.
  - intros Hlt.
    destruct (triggerRedirect_accepted c manual q Hlt) as (_ & T & _ & N & _).
    rewrite T, N. split; reflexivity.
  - repeat split.
Qed.

(** X14 at the page on which the ceiling has been reached. *)
Lemma X14_witness_at_ceiling :
  navigations
    (forceRedirect CONFIG true
       (perform CONFIG [Call manual; Call manual; Call manual] startPage)) = [].
Proof.
  destruct (X14_forceRedirect_obeys_the_ceiling CONFIG
              (perform CONFIG [Call manual; Call manual; Call manual] startPage))
    as (A & _).
  destruct A as (N & _).
  - vm_compute. lia.
  - exact N.
Defined.

(** ** The iframe height watcher *)

Lemma last_cons {A : Type} (l : list A) (h d : A) : last (h :: l) d = last l h.
Proof.
  revert h d. induction l as [|x l IH]; intros h d; [reflexivity|].
  change (last (h :: x :: l) d) with (last (x :: l) d).
  rewrite (IH x d), (IH x h). reflexivity.
Qed.

Lemma sizeTick_eq (w : SizeWatch) (currentHeight : N) :
  sizeTick w currentHeight =
  if N.eqb currentHeight (lastHeight w) then w
  else {| lastHeight := currentHeight;
          sizeLog := sizeLog w ++ [HeightChanged (lastHeight w) currentHeight] |}.
Proof.
  unfold sizeTick. destruct (N.eqb currentHeight (lastHeight w)); [reflexivity|].
  cbv zeta. cbn [lastHeight sizeLog].
  replace (N.ltb (2 * currentHeight) currentHeight) with false
    by (symmetry; apply N.ltb_ge; lia).
  reflexivity.
Qed.

(** X16.  Over every sequence of heights the height watcher prints one
    'height changed' line, with the old and the new height, for every
    height that differs from the one before it, and nothing else: it
    never reports a significant height reduction, because it compares
    the new height with half of [lastHeight] after it has overwritten
    [lastHeight] with the new height, and no height is below its own
    half.  [lastHeight] ends as the last height read. *)
Theorem X16_height_reduction_is_never_reported (heights : list N) (w : SizeWatch) :
  let w' := fold_left sizeTick heights w in
  sizeLog w' = sizeLog w ++ heightChanges (lastHeight w) heights /\
  filter isSignificant (sizeLog w') = filter isSignificant (sizeLog w) /\
  lastHeight w' = last heights (lastHeight w).
Proof.
  revert w. induction heights as [|h l IH]; intros w.
  - cbn. rewrite app_nil_r. repeat split.
  - cbn [fold_left heightChanges].
    destruct (IH (sizeTick w h)) as (S & F & L). cbv zeta in S, F, L.
    cbv zeta. rewrite F, S, L, sizeTick_eq.
    destruct (N.eqb h (lastHeight w)) eqn:E.
    + repeat split. apply N.eqb_eq in E. rewrite E. symmetry. apply last_cons.
    + cbn [sizeLog lastHeight]. rewrite <- app_assoc, filter_app.
      cbn [filter isSignificant app]. rewrite app_nil_r.
      repeat split. symmetry. apply last_cons.
Qed.
